(** * SCOTUS IRAC generator: the request handlers of app.py and app_new.py

    A shallow embedding of the two Flask variants of [generate_irac] and of
    the helpers they call, followed by the properties of the request
    pipeline: upload validation, text extraction, prompt templating, the
    response cache and the JSON error envelope.

    Conventions.
    - A Python [str] is a list of Unicode code points ([pystr]); source
      literals are written [str "..."].
    - A Python dict with literal keys (a JSON body, [request.form],
      [request.files]) is a [gmap string _].
    - Objects that are stored and later mutated or read through another
      reference (the result dict kept in [response_cache]) live in a heap and
      are named by their location.
    - A function body runs in the monad [Py]: it ends normally, executes
      [return], or raises; the world it threads holds the heap, the response
      cache and the log of calls to the two external collaborators (the PDF
      reader and the completion service).
    - Calls to [logger] and [print] only write to the server log and are left
      out. The rate limiter and the CORS wrapper around the view, and the
      static-file and health routes, are outside the model. *)

From Stdlib Require Import ZArith NArith QArith String Ascii List Lia.
From stdpp Require Import base option list gmap strings.

Open Scope Z_scope.

(** ** Python strings *)

Module PyStr.

Definition char := N.
Definition pystr := list char.

(** A source literal; every literal the model uses is ASCII. *)
Definition str (s : string) : pystr :=
  map N_of_ascii (list_ascii_of_string s).

(** [c in s] for a one-character needle. *)
Definition contains_char (c : char) (s : pystr) : bool :=
  existsb (N.eqb c) s.

(** [str.isspace] on one code point: the characters [str.strip()] removes. *)
Definition isspace (c : char) : bool :=
  ((9 <=? c) && (c <=? 13) || (28 <=? c) && (c <=? 32) ||
   (c =? 133) || (c =? 160) || (c =? 5760) ||
   (8192 <=? c) && (c <=? 8202) || (c =? 8232) || (c =? 8233) ||
   (c =? 8239) || (c =? 8287) || (c =? 12288))%N.

Fixpoint lstrip (s : pystr) : pystr :=
  match s with
  | c :: s' => if isspace c then lstrip s' else s
  | [] => []
  end.

Definition rstrip (s : pystr) : pystr := rev (lstrip (rev s)).

(** [s.strip()] *)
Definition strip (s : pystr) : pystr := rstrip (lstrip s).

(** [s.lower()] on the ASCII letters. Outside ASCII Python lowers further
    characters, but none of them to one of the characters of [".pdf"], the
    only text the handlers compare a lowered string with. *)
Definition lower_char (c : char) : char :=
  if ((65 <=? c) && (c <=? 90))%N then (c + 32)%N else c.

Definition lower (s : pystr) : pystr := map lower_char s.

(** Splits at the last occurrence of [sep]: [Some (before, after)]. *)
Fixpoint rpartition (sep : char) (s : pystr) : option (pystr * pystr) :=
  match s with
  | [] => None
  | c :: s' =>
      match rpartition sep s' with
      | Some (before, after) => Some (c :: before, after)
      | None => if (c =? sep)%N then Some ([], s') else None
      end
  end.

(** [s.rsplit(sep, 1)] for a one-character separator. *)
Definition rsplit1 (sep : char) (s : pystr) : list pystr :=
  match rpartition sep s with
  | Some (before, after) => [before; after]
  | None => [s]
  end.

Fixpoint startswith (p s : pystr) : bool :=
  match p, s with
  | [], _ => true
  | a :: p', b :: s' => (a =? b)%N && startswith p' s'
  | _ :: _, [] => false
  end.

(** [s.endswith(suffix)] *)
Definition endswith (s suffix : pystr) : bool :=
  startswith (rev suffix) (rev s).

(** [sep.join(parts)] *)
Fixpoint join (sep : pystr) (parts : list pystr) : pystr :=
  match parts with
  | [] => []
  | [p] => p
  | p :: rest => p ++ sep ++ join sep rest
  end.

(** [x or ""] for a value that is [None] or a string. *)
Definition or_empty (x : option pystr) : pystr := default [] x.

(** [re.sub] for a pattern that is a single character class: every character
    of the class is replaced by [repl], the others are kept. *)
Definition re_sub_class (cls : char -> bool) (repl : pystr) (s : pystr) : pystr :=
  flat_map (fun c => if cls c then repl else [c]) s.

Definition hexdigit (n : N) : char :=
  if (n <? 10)%N then (48 + n)%N else (87 + n)%N.

(** ['{0:04x}'.format(n)] for [n < 0x10000]. *)
Definition hex4 (n : N) : pystr :=
  [hexdigit (N.shiftr n 12 mod 16); hexdigit (N.shiftr n 8 mod 16);
   hexdigit (N.shiftr n 4 mod 16); hexdigit (n mod 16)]%N.

(** [s.encode()]: UTF-8. *)
Definition encode_char (c : char) : list Z :=
  let z := Z.of_N c in
  if z <? 128 then [z]
  else if z <? 2048 then
    [Z.lor 192 (Z.shiftr z 6); Z.lor 128 (Z.land z 63)]
  else if z <? 65536 then
    [Z.lor 224 (Z.shiftr z 12); Z.lor 128 (Z.land (Z.shiftr z 6) 63);
     Z.lor 128 (Z.land z 63)]
  else
    [Z.lor 240 (Z.shiftr z 18); Z.lor 128 (Z.land (Z.shiftr z 12) 63);
     Z.lor 128 (Z.land (Z.shiftr z 6) 63); Z.lor 128 (Z.land z 63)].

Definition encode (s : pystr) : list Z := flat_map encode_char s.

End PyStr.
Export PyStr.

(** ** json.dumps on a tuple of strings *)

Module Json.

(** [json.encoder.py_encode_basestring_ascii]: the escapes of [ESCAPE_DCT],
    then [\uXXXX] for everything outside [' '..'~'], astral characters as a
    surrogate pair. *)
Definition escape_char (c : char) : pystr :=
  if (c =? 92)%N then str "\\"
  else if (c =? 34)%N then [92; 34]%N
  else if (c =? 8)%N then str "\b"
  else if (c =? 12)%N then str "\f"
  else if (c =? 10)%N then str "\n"
  else if (c =? 13)%N then str "\r"
  else if (c =? 9)%N then str "\t"
  else if ((32 <=? c) && (c <=? 126))%N then [c]
  else if (c <? 65536)%N then str "\u" ++ hex4 c
  else
    let n := (c - 65536)%N in
    let s1 := N.lor 55296 (N.land (N.shiftr n 10) 1023) in
    let s2 := N.lor 56320 (N.land n 1023) in
    str "\u" ++ hex4 s1 ++ str "\u" ++ hex4 s2.

Definition encode_basestring_ascii (s : pystr) : pystr :=
  [34%N] ++ flat_map escape_char s ++ [34%N].

(** [json.dumps(args, sort_keys=True)] for a tuple of strings: a JSON array
    with [", "] between the items. *)
Definition dumps (args : list pystr) : pystr :=
  str "[" ++ join (str ", ") (map encode_basestring_ascii args) ++ str "]".

End Json.

(** ** hashlib.md5 *)

Module MD5.

Definition mask32 : Z := 4294967295.

Definition add32 (a b : Z) : Z := Z.land (a + b) mask32.

Definition rotl32 (x c : Z) : Z :=
  Z.land (Z.lor (Z.shiftl x c) (Z.shiftr x (32 - c))) mask32.

Definition not32 (x : Z) : Z := Z.lxor x mask32.

Definition shifts : list Z :=
  [7; 12; 17; 22; 7; 12; 17; 22; 7; 12; 17; 22; 7; 12; 17; 22;
   5; 9; 14; 20; 5; 9; 14; 20; 5; 9; 14; 20; 5; 9; 14; 20;
   4; 11; 16; 23; 4; 11; 16; 23; 4; 11; 16; 23; 4; 11; 16; 23;
   6; 10; 15; 21; 6; 10; 15; 21; 6; 10; 15; 21; 6; 10; 15; 21].

Definition K : list Z :=
  [0xd76aa478; 0xe8c7b756; 0x242070db; 0xc1bdceee; 0xf57c0faf; 0x4787c62a;
   0xa8304613; 0xfd469501; 0x698098d8; 0x8b44f7af; 0xffff5bb1; 0x895cd7be;
   0x6b901122; 0xfd987193; 0xa679438e; 0x49b40821; 0xf61e2562; 0xc040b340;
   0x265e5a51; 0xe9b6c7aa; 0xd62f105d; 0x02441453; 0xd8a1e681; 0xe7d3fbc8;
   0x21e1cde6; 0xc33707d6; 0xf4d50d87; 0x455a14ed; 0xa9e3e905; 0xfcefa3f8;
   0x676f02d9; 0x8d2a4c8a; 0xfffa3942; 0x8771f681; 0x6d9d6122; 0xfde5380c;
   0xa4beea44; 0x4bdecfa9; 0xf6bb4b60; 0xbebfbc70; 0x289b7ec6; 0xeaa127fa;
   0xd4ef3085; 0x04881d05; 0xd9d4d039; 0xe6db99e5; 0x1fa27cf8; 0xc4ac5665;
   0xf4292244; 0x432aff97; 0xab9423a7; 0xfc93a039; 0x655b59c3; 0x8f0ccc92;
   0xffeff47d; 0x85845dd1; 0x6fa87e4f; 0xfe2ce6e0; 0xa3014314; 0x4e0811a1;
   0xf7537e82; 0xbd3af235; 0x2ad7d2bb; 0xeb86d391].

Definition nthZ (l : list Z) (i : Z) : Z := nth (Z.to_nat i) l 0.

(** The message followed by 0x80, zeros up to 56 mod 64, and the bit length
    as eight little-endian bytes. *)
Definition le_bytes (n : nat) (x : Z) : list Z :=
  map (fun i => Z.land (Z.shiftr x (8 * Z.of_nat i)) 255) (seq 0 n).

Definition pad (msg : list Z) : list Z :=
  let len := Z.of_nat (length msg) in
  let zeros := Z.to_nat ((55 - len) mod 64) in
  msg ++ [128] ++ repeat 0 zeros ++ le_bytes 8 (Z.land (8 * len) (2 ^ 64 - 1)).

Fixpoint le_words (n : nat) (bytes : list Z) : list Z :=
  match n, bytes with
  | S n', b0 :: b1 :: b2 :: b3 :: rest =>
      (b0 + Z.shiftl b1 8 + Z.shiftl b2 16 + Z.shiftl b3 24) :: le_words n' rest
  | _, _ => []
  end.

Record regs := { rA : Z; rB : Z; rC : Z; rD : Z }.

Definition round (M : list Z) (r : regs) (i : Z) : regs :=
  let '(F, g) :=
    if i <? 16 then
      (Z.lor (Z.land (rB r) (rC r)) (Z.land (not32 (rB r)) (rD r)), i)
    else if i <? 32 then
      (Z.lor (Z.land (rD r) (rB r)) (Z.land (not32 (rD r)) (rC r)),
       (5 * i + 1) mod 16)
    else if i <? 48 then
      (Z.lxor (rB r) (Z.lxor (rC r) (rD r)), (3 * i + 5) mod 16)
    else
      (Z.lxor (rC r) (Z.lor (rB r) (not32 (rD r))), (7 * i) mod 16) in
  let F' := add32 (add32 (add32 F (rA r)) (nthZ K i)) (nthZ M g) in
  {| rA := rD r; rD := rC r; rC := rB r;
     rB := add32 (rB r) (rotl32 F' (nthZ shifts i)) |}.

Definition block (r : regs) (chunk : list Z) : regs :=
  let M := le_words 16 chunk in
  let r' := fold_left (round M) (map Z.of_nat (seq 0 64)) r in
  {| rA := add32 (rA r) (rA r'); rB := add32 (rB r) (rB r');
     rC := add32 (rC r) (rC r'); rD := add32 (rD r) (rD r') |}.

Fixpoint blocks (n : nat) (r : regs) (bytes : list Z) : regs :=
  match n with
  | O => r
  | S n' => blocks n' (block r (firstn 64 bytes)) (skipn 64 bytes)
  end.

Definition digest (msg : list Z) : list Z :=
  let p := pad msg in
  let r := blocks (length p / 64)
             {| rA := 0x67452301; rB := 0xefcdab89;
                rC := 0x98badcfe; rD := 0x10325476 |} p in
  le_bytes 4 (rA r) ++ le_bytes 4 (rB r) ++ le_bytes 4 (rC r) ++ le_bytes 4 (rD r).

(** [hashlib.md5(data).hexdigest()] *)
Definition hexdigest (msg : list Z) : pystr :=
  flat_map (fun b => [hexdigit (Z.to_N (Z.shiftr b 4)); hexdigit (Z.to_N (Z.land b 15))])
           (digest msg).

End MD5.

Open Scope string_scope.
Open Scope list_scope.
Open Scope Z_scope.

(** ** JSON bodies, responses, exceptions *)

(** The values the handlers put into a JSON body. *)
Inductive jvalue : Type :=
| JNull
| JBool (b : bool)
| JStr (s : pystr)
| JObject (o : gmap string Z).

(** A Python dict with string keys: a JSON body. *)
Definition dict : Type := gmap string jvalue.

(** [jsonify(body), status]; a bare [jsonify(body)] has status 200. *)
Record Response : Type := { body : dict; status : Z }.

(** The exception classes the handlers distinguish; all derive from
    [Exception]. [AuthenticationError] and [RateLimitError] derive from
    [APIError]. *)
Inductive exn_class : Type :=
| RequestEntityTooLarge
| KeyError
| IndexError
| AttributeError
| ValueError
| PdfReadError
| AuthenticationError
| RateLimitError
| APIError
| OtherException.

(** An exception: its class and [str(e)]. *)
Record exn : Type := { exn_class_of : exn_class; exn_text : pystr }.

#[global] Instance exn_class_eq_dec : EqDecision exn_class.
Proof. solve_decision. Defined.

(** ** The external collaborators *)

(** What PyPDF2 makes of an uploaded byte stream: the stream does not parse,
    or it is a sequence of pages whose [extract_text()] gives a string, gives
    [None], or raises. *)
Inductive page : Type :=
| PageText (t : option pystr)
| PageFails (e : exn).

Inductive pdf : Type :=
| NotAPdf (e : exn)
| Pdf (pages : list page).

(** werkzeug's [FileStorage]. *)
Record FileStorage : Type := { filename : pystr; stream : pdf }.

(** The parts of flask's [request] the handlers read. *)
Record Request : Type := {
  content_length : Z;
  files : gmap string FileStorage;
  form : gmap string pystr
}.

(** One chat-completion call and what the service answers. *)
Record Message : Type := { msg_role : pystr; msg_content : pystr }.

Record ChatRequest : Type := {
  model : pystr;
  messages : list Message;
  max_tokens : Z;
  temperature : Q
}.

Record Choice : Type := { content : option pystr }.

Record ChatResponse : Type := {
  choices : list Choice;
  response_model : pystr;
  usage : gmap string Z
}.

(** The completion service during one request: it answers or raises. *)
Definition Completion : Type := ChatRequest -> exn + ChatResponse.

(** Calls that leave the process, most recent first. *)
Inductive call : Type :=
| PdfRead (f : FileStorage)
| ChatCompletion (r : ChatRequest).

Definition is_completion (c : call) : bool :=
  match c with ChatCompletion _ => true | PdfRead _ => false end.

(** ** cachetools.TTLCache *)

(** The cache as cachetools 5 implements it for items of size one: the
    links are kept least recently used first; [timer()] is passed in as
    [now], in seconds. *)
Module TTLCache.
Section Cache.
Context {V : Type}.

Record link : Type := { value : V; expires : Z }.

Record t : Type := { maxsize : nat; ttl : Z; links : list (pystr * link) }.

Definition new (maxsize : nat) (ttl : Z) : t :=
  {| maxsize := maxsize; ttl := ttl; links := [] |}.

Definition with_links (c : t) (l : list (pystr * link)) : t :=
  {| maxsize := maxsize c; ttl := ttl c; links := l |}.

Fixpoint find (k : pystr) (l : list (pystr * link)) : option link :=
  match l with
  | [] => None
  | (k', x) :: l' => if decide (k' = k) then Some x else find k l'
  end.

Definition remove (k : pystr) (l : list (pystr * link)) : list (pystr * link) :=
  filter (fun p => p.1 <> k) l.

Definition live (now : Z) (p : pystr * link) : Prop := now < expires p.2.

#[global] Instance live_dec now p : Decision (live now p).
Proof. unfold live. apply _. Defined.

(** [key in cache]: present and not expired; the order is left alone. *)
Definition contains (now : Z) (c : t) (k : pystr) : bool :=
  match find k (links c) with
  | Some x => bool_decide (now < expires x)
  | None => false
  end.

(** [cache[key]]: [None] stands for [KeyError] (absent or expired); a hit
    makes the key the most recently used. *)
Definition getitem (now : Z) (c : t) (k : pystr) : option (V * t) :=
  match find k (links c) with
  | Some x =>
      if bool_decide (now < expires x)
      then Some (value x, with_links c (remove k (links c) ++ [(k, x)]))
      else None
  | None => None
  end.

(** [cache.expire(now)] *)
Definition expire (now : Z) (l : list (pystr * link)) : list (pystr * link) :=
  filter (live now) l.

(** [while currsize + 1 > maxsize: popitem()]: drops least recently used
    links until one more fits. *)
Fixpoint make_room (maxsize : nat) (l : list (pystr * link)) : list (pystr * link) :=
  match l with
  | [] => []
  | _ :: l' =>
      if bool_decide (maxsize < length l + 1)%nat then make_room maxsize l' else l
  end.

(** [cache[key] = value]: [None] stands for [ValueError("value too
    large")], raised when nothing fits at all. *)
Definition setitem (now : Z) (c : t) (k : pystr) (v : V) : option t :=
  if bool_decide (maxsize c < 1)%nat then None
  else
    let l0 := expire now (links c) in
    let l1 := match find k l0 with
              | Some _ => l0
              | None => make_room (maxsize c) l0
              end in
    Some (with_links c (remove k l1 ++ [(k, {| value := v; expires := now + ttl c |})])).

End Cache.
Arguments link : clear implicits.
Arguments t : clear implicits.
End TTLCache.

(** ** The world and the monad of function bodies *)

Definition loc : Type := nat.

Record World : Type := {
  heap : list dict;
  response_cache : TTLCache.t loc;
  calls : list call
}.

(** Module level, line 70 of app_new.py:
    [response_cache = TTLCache(maxsize=100, ttl=300)]. *)
Definition initial_world : World :=
  {| heap := []; response_cache := TTLCache.new 100 300; calls := [] |}.

Inductive outcome (A : Type) : Type :=
| Normal (a : A)
| Return (r : Response)
| Raise (e : exn).
Arguments Normal {A} a.
Arguments Return {A} r.
Arguments Raise {A} e.

Definition Py (A : Type) : Type := World -> outcome A * World.

Definition ret {A} (a : A) : Py A := fun w => (Normal a, w).

Definition bind {A B} (m : Py A) (k : A -> Py B) : Py B :=
  fun w =>
    match m w with
    | (Normal a, w') => k a w'
    | (Return r, w') => (Return r, w')
    | (Raise e, w') => (Raise e, w')
    end.

Notation "x <- m ;; k" := (bind m (fun x => k))
  (at level 100, m at next level, right associativity).
Notation "m ;; k" := (bind m (fun _ => k))
  (at level 100, right associativity).

(** [return jsonify(body), status] *)
Definition return_ {A} (b : dict) (s : Z) : Py A :=
  fun w => (Return {| body := b; status := s |}, w).

Definition raise {A} (c : exn_class) (text : string) : Py A :=
  fun w => (Raise {| exn_class_of := c; exn_text := str text |}, w).

Definition reraise {A} (e : exn) : Py A := fun w => (Raise e, w).

(** [if cond: stmt] *)
Definition when (cond : bool) (stmt : Py unit) : Py unit :=
  if cond then stmt else ret tt.

(** [try: body / except Exception as e: handler]. With several [except]
    clauses the handler dispatches on the class of [e]. *)
Definition try_except {A} (body : Py A) (handler : exn -> Py A) : Py A :=
  fun w =>
    match body w with
    | (Raise e, w') => handler e w'
    | r => r
    end.

Definition log_call (c : call) : Py unit :=
  fun w => (Normal tt,
            {| heap := heap w; response_cache := response_cache w;
               calls := c :: calls w |}).

(** A dict literal bound to a name: a fresh object. *)
Definition new_dict (d : dict) : Py loc :=
  fun w => (Normal (length (heap w)),
            {| heap := heap w ++ [d]; response_cache := response_cache w;
               calls := calls w |}).

(** [obj[key] = v] *)
Definition dict_setitem (obj : loc) (key : string) (v : jvalue) : Py unit :=
  fun w => (Normal tt,
            {| heap := alter (insert key v) obj (heap w);
               response_cache := response_cache w; calls := calls w |}).

(** Reading an object through a reference, as [jsonify(obj)] does. *)
Definition deref (obj : loc) : Py dict :=
  fun w =>
    match heap w !! obj with
    | Some d => (Normal d, w)
    | None => raise KeyError "dangling reference" w
    end.

(** [key in response_cache] *)
Definition cache_contains (now : Z) (key : pystr) : Py bool :=
  fun w => (Normal (TTLCache.contains now (response_cache w) key), w).

(** [response_cache[key]] *)
Definition cache_getitem (now : Z) (key : pystr) : Py loc :=
  fun w =>
    match TTLCache.getitem now (response_cache w) key with
    | Some (obj, c) =>
        (Normal obj, {| heap := heap w; response_cache := c; calls := calls w |})
    | None => (Raise {| exn_class_of := KeyError; exn_text := key |}, w)
    end.

(** [response_cache[key] = obj] *)
Definition cache_setitem (now : Z) (key : pystr) (obj : loc) : Py unit :=
  fun w =>
    match TTLCache.setitem now (response_cache w) key obj with
    | Some c =>
        (Normal tt, {| heap := heap w; response_cache := c; calls := calls w |})
    | None => raise ValueError "value too large" w
    end.

(** ** The framework and the two client libraries *)

(** Lines 19-20 of app.py, 20-21 of app_new.py. *)
Definition MAX_CONTENT_LENGTH : Z := 16 * 1024 * 1024.
Definition ALLOWED_EXTENSIONS : list pystr := [str "pdf"].

(** [request.files]: werkzeug parses the form on first access and refuses a
    body longer than [MAX_CONTENT_LENGTH]. *)
Definition request_files (request : Request) : Py (gmap string FileStorage) :=
  if MAX_CONTENT_LENGTH <? content_length request
  then raise RequestEntityTooLarge "413 Request Entity Too Large"
  else ret (files request).

(** [request.files[name]] *)
Definition files_getitem (fs : gmap string FileStorage) (name : string) : Py FileStorage :=
  match fs !! name with
  | Some f => ret f
  | None => raise KeyError "400 Bad Request"
  end.

(** [request.form.get(name, default)] *)
Definition form_get (request : Request) (name : string) (dflt : pystr) : pystr :=
  default dflt (form request !! name).

(** [PdfReader(file)] followed by [reader.pages]. *)
Definition PdfReader (file : FileStorage) : Py (list page) :=
  log_call (PdfRead file) ;;
  match stream file with
  | Pdf pages => ret pages
  | NotAPdf e => reraise e
  end.

(** [page.extract_text() or ""] *)
Definition extract_text (p : page) : Py pystr :=
  match p with
  | PageText t => ret (or_empty t)
  | PageFails e => reraise e
  end.

(** [openai.ChatCompletion.create(...)], [openai.chat.completions.create(...)] *)
Definition create (openai : Completion) (r : ChatRequest) : Py ChatResponse :=
  log_call (ChatCompletion r) ;;
  match openai r with
  | inr response => ret response
  | inl e => reraise e
  end.

(** [response.choices[0]] *)
Definition first_choice (response : ChatResponse) : Py Choice :=
  match choices response with
  | c :: _ => ret c
  | [] => raise IndexError "list index out of range"
  end.

(** JSON from a value that is [None] or a string. *)
Definition json_of (x : option pystr) : jvalue :=
  match x with Some s => JStr s | None => JNull end.

Definition unlines (l : list string) : pystr := join [10%N] (map str l).

(** ** Helpers shared by the two files

    Lines 72-85 of app.py and 73-86 of app_new.py are the same text. *)

(** [allowed_file(filename)] *)
Definition allowed_file (filename : pystr) : bool :=
  contains_char 46%N filename &&
  match rsplit1 46%N filename !! 1%nat with
  | Some ext => bool_decide (lower ext ∈ ALLOWED_EXTENSIONS)
  | None => false
  end.

(** The class [[^\x20-\x7E\n]]. *)
Definition not_printable (c : char) : bool :=
  negb ((32 <=? c) && (c <=? 126) || (c =? 10))%N.

(** [sanitize_input(text)]; [None] is Python's [None]. *)
Definition sanitize_input (text : option pystr) : pystr :=
  match text with
  | None => []
  | Some [] => []
  | Some t => re_sub_class not_printable [] t
  end.

(** [generate_cache_key], applied to the tuple of its arguments. *)
Definition generate_cache_key (args : list pystr) : pystr :=
  MD5.hexdigest (encode (Json.dumps args)).

Definition user_message (prompt : pystr) : Message :=
  {| msg_role := str "user"; msg_content := prompt |}.

Definition system_message (text : pystr) : Message :=
  {| msg_role := str "system"; msg_content := text |}.

Definition error_body (message : string) : dict :=
  {[ "error" := JStr (str message) ]}.

(** ** app.py

    As it stands the file is no Python program: lines 1-174 parse, but the
    triple-quoted string that line 181 opens is closed by the quotes that
    open the one of line 182, and what follows (with the [else] of line 240
    and the [except] of line 343) is no statement, so the interpreter
    refuses the module and it serves no request. The module below embeds
    the text of lines 122-174 as Python would run it, and two statements of
    the lines after them that read as statements on their own. *)

Module App.

(** The list comprehension of line 126. *)
Fixpoint page_texts (ps : list page) : Py (list pystr) :=
  match ps with
  | [] => ret []
  | p :: ps' => t <- extract_text p ;; ts <- page_texts ps' ;; ret (t :: ts)
  end.

(** The name [PdfReader] of line 125. app.py has [import PyPDF2] and binds
    no name [PdfReader], so evaluating the name raises [NameError] before
    anything is called: no document is read. *)
Definition PdfReader (file : FileStorage) : Py (list page) :=
  raise OtherException "name 'PdfReader' is not defined".

(** [extract_text_from_pdf(pdf_file)], lines 122-129: any failure gives the
    empty string. *)
Definition extract_text_from_pdf (pdf_file : FileStorage) : Py pystr :=
  try_except
    (pages <- PdfReader pdf_file ;;
     ts <- page_texts pages ;;
     ret (join (str " ") ts))
    (fun _ => ret []).

(** The f-string of lines 153-160. *)
Definition prompt (role case_name case_text : pystr) : pystr :=
  unlines
    ["Create an IRAC (Issue, Rule, Analysis, Conclusion) summary for this legal case.";
     "        Case: "] ++
  case_name ++
  unlines
    ["";
     "        Role: "] ++
  role ++
  unlines
    ["";
     "        ";
     "        "] ++
  take 3000 case_text ++
  unlines
    ["";
     "        ";
     "        Provide a clear IRAC analysis in plain text.";
     "        "].

Definition chat_request (prompt : pystr) : ChatRequest :=
  {| model := str "gpt-3.5-turbo";
     messages := [user_message prompt];
     max_tokens := 500;
     temperature := 3 # 10 |}.

(** [message.content.strip()]; [content] may be [None]. *)
Definition content_strip (c : Choice) : Py pystr :=
  match content c with
  | Some s => ret (strip s)
  | None => raise AttributeError "'NoneType' object has no attribute 'strip'"
  end.


(** Two statements of the lines after the [try] statement. *)
Module Tail.

(** Lines 176-178. *)
Definition with_docket (case_name docket_number : pystr) : pystr :=
  if bool_decide (docket_number = []) then case_name
  else if bool_decide (case_name = [])
       then str "Docket No. " ++ docket_number
       else case_name ++ str " (Docket No. " ++ docket_number ++ str ")".

Definition chat_request (prompt : pystr) : ChatRequest :=
  {| model := str "gpt-3.5-turbo";
     messages := [user_message prompt];
     max_tokens := 700;
     temperature := 3 # 10 |}.

(** Lines 293-341: the call of the completion service with its [except]
    clauses. [api_key] is [openai.api_key]. *)
Definition completion (api_key : pystr) (prompt : pystr) (openai : Completion)
  : Py unit :=
  try_except
    (when (bool_decide (api_key = []))
       (return_ (error_body "OpenAI API key is not configured") 500) ;;
     response <- create openai (chat_request prompt) ;;
     when (match choices response with
           | [] => true
           | c :: _ => bool_decide (default [] (content c) = [])
           end)
       (return_ (error_body "Received empty response from OpenAI") 500) ;;
     choice <- first_choice response ;;
     irac_summary <- content_strip choice ;;
     return_ {[ "summary" := JStr irac_summary ]} 200)
    (fun e =>
       match exn_class_of e with
       | AuthenticationError =>
           return_ (error_body "Authentication failed with OpenAI. Please check your API key.") 401
       | RateLimitError =>
           return_ (error_body "Rate limit exceeded. Please try again later.") 429
       | APIError =>
           return_ {[ "error" := JStr (str "OpenAI API error: " ++ exn_text e) ]} 500
       | _ =>
           return_ (error_body "An unexpected error occurred. Please try again.") 500
       end).

End Tail.

End App.

(** ** app_new.py *)

Module AppNew.

(** The loop of lines 93-94. *)
Fixpoint page_loop (text : pystr) (ps : list page) : Py pystr :=
  match ps with
  | [] => ret text
  | p :: ps' => t <- extract_text p ;; page_loop (text ++ t) ps'
  end.

(** [extract_text_from_pdf(pdf_file)], lines 88-98: any failure is raised
    again as a [ValueError]. *)
Definition extract_text_from_pdf (pdf_file : FileStorage) : Py pystr :=
  try_except
    (pages <- PdfReader pdf_file ;;
     page_loop [] pages)
    (fun _ => raise ValueError "Failed to extract text from PDF").

(** The two f-strings of lines 172-186 and 188-199. *)
Definition student_prompt (case_name text : pystr) : pystr :=
  str "Generate a detailed IRAC analysis for the following case: " ++
  case_name ++
  unlines
    ["";
     "            ";
     "            "] ++
  text ++
  unlines
    ["";
     "            ";
     "            Please structure your response with these sections:";
     "            1. Case Citation";
     "            2. Procedural History";
     "            3. Issues";
     "            4. Rules";
     "            5. Analysis";
     "            6. Conclusion";
     "            7. Significance";
     "            8. Related Cases";
     "            ";
     "            Include proper legal citations and analysis."].

Definition paralegal_prompt (case_name text : pystr) : pystr :=
  str "Create a concise case summary for " ++
  case_name ++
  unlines
    [" with these sections:";
     "            ";
     "            "] ++
  text ++
  unlines
    ["";
     "            ";
     "            1. Case Citation";
     "            2. Key Facts";
     "            3. Holding";
     "            4. Rule of Law";
     "            5. Practical Implications";
     "            6. Checklist for Use";
     "            ";
     "            Focus on practical applications and use bullet points for readability."].

(** Lines 170-199: the prompt by role. *)
Definition build_prompt (role case_name text : pystr) : pystr :=
  if bool_decide (role = str "law_student")
  then student_prompt case_name text
  else paralegal_prompt case_name text.

Definition chat_request (prompt : pystr) : ChatRequest :=
  {| model := str "gpt-4";
     messages :=
       [system_message (str "You are a legal expert providing case analysis.");
        user_message prompt];
     max_tokens := 2000;
     temperature := 3 # 10 |}.

(** The dict literal of lines 213-218. *)
Definition result_of (response : ChatResponse) (choice : Choice) : dict :=
  {[ "analysis" := json_of (content choice);
     "model" := JStr (response_model response);
     "usage" := JObject (usage response);
     "cached" := JBool false ]}.

(** [generate_irac()], lines 131-234; [now] is the clock reading the cache
    sees during this request. *)
Definition generate_irac (now : Z) (request : Request) (openai : Completion)
  : Py unit :=
  try_except
    (fs <- request_files request ;;
     when (bool_decide (fs !! "file" = None))
       (return_ (error_body "No file part") 400) ;;
     file <- files_getitem fs "file" ;;
     when (bool_decide (filename file = []))
       (return_ (error_body "No selected file") 400) ;;
     when (negb (allowed_file (filename file)))
       (return_ (error_body "Invalid file type. Only PDF files are allowed.") 400) ;;
     let role := form_get request "role" (str "law_student") in
     let case_name :=
       sanitize_input (Some (form_get request "case_name" (str "Unnamed Case"))) in
     let cache_key := generate_cache_key [filename file; role; case_name] in
     hit <- cache_contains now cache_key ;;
     when hit
       (cached <- cache_getitem now cache_key ;;
        b <- deref cached ;;
        return_ b 200) ;;
     text <- try_except
               (text <- extract_text_from_pdf file ;;
                when (bool_decide (strip text = []))
                  (return_ (error_body "The uploaded PDF appears to be empty or could not be read") 400) ;;
                ret text)
               (fun e => return_ (error_body "Error processing PDF file") 400) ;;
     let prompt := build_prompt role case_name text in
     try_except
       (response <- create openai (chat_request prompt) ;;
        choice <- first_choice response ;;
        result <- new_dict (result_of response choice) ;;
        cache_setitem now cache_key result ;;
        dict_setitem result "cached" (JBool false) ;;
        b <- deref result ;;
        return_ b 200)
       (fun e => return_ (error_body "Error generating analysis. Please try again later.") 500))
    (fun e =>
       match exn_class_of e with
       | RequestEntityTooLarge => return_ (error_body "File too large") 413
       | _ => return_ (error_body "An unexpected error occurred") 500
       end).

End AppNew.

(** ** Notions used to state the properties *)

(** The world after one more call was logged. *)
Definition logged (c : call) (w : World) : World :=
  {| heap := heap w; response_cache := response_cache w; calls := c :: calls w |}.

(** The calls to the completion service a world has logged. *)
Definition completions (w : World) : list call := filter is_completion (calls w).

(** The page texts in page order, or the first failure. *)
Fixpoint texts_of (ps : list page) : exn + list pystr :=
  match ps with
  | [] => inr []
  | PageFails e :: _ => inl e
  | PageText t :: ps' =>
      match texts_of ps' with
      | inr ts => inr (or_empty t :: ts)
      | inl e => inl e
      end
  end.

(** The text app_new.py extracts from a document, [None] when extraction
    raises. *)
Definition new_text (d : pdf) : option pystr :=
  match d with
  | NotAPdf _ => None
  | Pdf ps => match texts_of ps with inr ts => Some (concat ts) | inl _ => None end
  end.

(** A document that is corrupted (it does not parse, or a page fails) or
    that yields only empty or white-space text. *)
Definition blank_page (p : page) : bool :=
  match p with
  | PageText t => forallb isspace (or_empty t)
  | PageFails _ => false
  end.

Definition failing_page (p : page) : bool :=
  match p with PageFails _ => true | PageText _ => false end.

Definition unreadable (d : pdf) : bool :=
  match d with
  | NotAPdf _ => true
  | Pdf ps => existsb failing_page ps || forallb blank_page ps
  end.

(** The locals of app_new.py's handler, by request. *)
Definition new_role (request : Request) : pystr :=
  form_get request "role" (str "law_student").

Definition new_case_name (request : Request) : pystr :=
  sanitize_input (Some (form_get request "case_name" (str "Unnamed Case"))).

(** The fingerprint of a request: file name, role, sanitized case name. *)
Definition new_cache_key (request : Request) (file : FileStorage) : pystr :=
  generate_cache_key [filename file; new_role request; new_case_name request].

(** An upload that passes app_new.py's validation (lines 135-147). *)
Definition new_valid_upload (request : Request) (file : FileStorage) : Prop :=
  content_length request <= MAX_CONTENT_LENGTH /\
  files request !! "file" = Some file /\
  allowed_file (filename file) = true.


(** The worlds the server can be in: it starts with an empty cache and
    serves requests with app_new.py's handler, whatever the clock, the
    request and the completion service are. *)
Inductive reachable : World -> Prop :=
| reachable_initial : reachable initial_world
| reachable_step (w : World) (now : Z) (request : Request) (openai : Completion) :
    reachable w ->
    reachable (AppNew.generate_irac now request openai w).2.

(** Every object the cache refers to exists and has [cached] set to
    [False]. *)
Definition cached_objects_ok (w : World) : Prop :=
  forall p, p ∈ TTLCache.links (response_cache w) ->
    exists d, heap w !! TTLCache.value p.2 = Some d /\
              d !! "cached" = Some (JBool false).

(** The error messages of app_new.py's handler. *)
Definition new_error_messages : list string :=
  ["No file part"; "No selected file";
   "Invalid file type. Only PDF files are allowed.";
   "The uploaded PDF appears to be empty or could not be read";
   "Error processing PDF file";
   "Error generating analysis. Please try again later.";
   "File too large"; "An unexpected error occurred"].

Definition error_response (message : string) (code : Z) : Response :=
  {| body := error_body message; status := code |}.

(** The cache after a hit on [key]: the link moves to the recent end. *)
Definition touched (w : World) (key : pystr) (x : TTLCache.link loc) : World :=
  {| heap := heap w;
     response_cache :=
       TTLCache.with_links (response_cache w)
         (TTLCache.remove key (TTLCache.links (response_cache w)) ++ [(key, x)]);
     calls := calls w |}.

(** The prompt app_new.py builds for a request and an extracted text. *)
Definition new_prompt (request : Request) (text : pystr) : pystr :=
  AppNew.build_prompt (new_role request) (new_case_name request) text.

(** The paths through app_new.py's handler: the response and the world
    each one ends with. *)
Inductive new_path (now : Z) (request : Request) (openai : Completion) (w : World)
  : Response -> World -> Prop :=
| new_path_too_large :
    MAX_CONTENT_LENGTH < content_length request ->
    new_path now request openai w (error_response "File too large" 413) w
| new_path_no_file :
    content_length request <= MAX_CONTENT_LENGTH ->
    files request !! "file" = None ->
    new_path now request openai w (error_response "No file part" 400) w
| new_path_no_name file :
    content_length request <= MAX_CONTENT_LENGTH ->
    files request !! "file" = Some file ->
    filename file = [] ->
    new_path now request openai w (error_response "No selected file" 400) w
| new_path_bad_type file :
    content_length request <= MAX_CONTENT_LENGTH ->
    files request !! "file" = Some file ->
    filename file <> [] ->
    allowed_file (filename file) = false ->
    new_path now request openai w
      (error_response "Invalid file type. Only PDF files are allowed." 400) w
| new_path_hit file x d :
    new_valid_upload request file ->
    TTLCache.find (new_cache_key request file) (TTLCache.links (response_cache w)) = Some x ->
    now < TTLCache.expires x ->
    heap w !! TTLCache.value x = Some d ->
    new_path now request openai w {| body := d; status := 200 |}
      (touched w (new_cache_key request file) x)
| new_path_dangling file x :
    new_valid_upload request file ->
    TTLCache.find (new_cache_key request file) (TTLCache.links (response_cache w)) = Some x ->
    now < TTLCache.expires x ->
    heap w !! TTLCache.value x = None ->
    new_path now request openai w (error_response "An unexpected error occurred" 500)
      (touched w (new_cache_key request file) x)
| new_path_extract_failed file :
    new_valid_upload request file ->
    TTLCache.contains now (response_cache w) (new_cache_key request file) = false ->
    new_text (stream file) = None ->
    new_path now request openai w (error_response "Error processing PDF file" 400)
      (logged (PdfRead file) w)
| new_path_blank file text :
    new_valid_upload request file ->
    TTLCache.contains now (response_cache w) (new_cache_key request file) = false ->
    new_text (stream file) = Some text ->
    strip text = [] ->
    new_path now request openai w
      (error_response "The uploaded PDF appears to be empty or could not be read" 400)
      (logged (PdfRead file) w)
| new_path_service_failed file text e :
    new_valid_upload request file ->
    TTLCache.contains now (response_cache w) (new_cache_key request file) = false ->
    new_text (stream file) = Some text ->
    strip text <> [] ->
    openai (AppNew.chat_request (new_prompt request text)) = inl e ->
    new_path now request openai w
      (error_response "Error generating analysis. Please try again later." 500)
      (logged (ChatCompletion (AppNew.chat_request (new_prompt request text)))
         (logged (PdfRead file) w))
| new_path_no_choice file text response :
    new_valid_upload request file ->
    TTLCache.contains now (response_cache w) (new_cache_key request file) = false ->
    new_text (stream file) = Some text ->
    strip text <> [] ->
    openai (AppNew.chat_request (new_prompt request text)) = inr response ->
    choices response = [] ->
    new_path now request openai w
      (error_response "Error generating analysis. Please try again later." 500)
      (logged (ChatCompletion (AppNew.chat_request (new_prompt request text)))
         (logged (PdfRead file) w))
| new_path_store_failed file text response choice rest :
    new_valid_upload request file ->
    TTLCache.contains now (response_cache w) (new_cache_key request file) = false ->
    new_text (stream file) = Some text ->
    strip text <> [] ->
    openai (AppNew.chat_request (new_prompt request text)) = inr response ->
    choices response = choice :: rest ->
    TTLCache.setitem now (response_cache w) (new_cache_key request file)
      (length (heap w)) = None ->
    new_path now request openai w
      (error_response "Error generating analysis. Please try again later." 500)
      {| heap := heap w ++ [AppNew.result_of response choice];
         response_cache := response_cache w;
         calls := ChatCompletion (AppNew.chat_request (new_prompt request text))
                  :: PdfRead file :: calls w |}
| new_path_success file text response choice rest cache' :
    new_valid_upload request file ->
    TTLCache.contains now (response_cache w) (new_cache_key request file) = false ->
    new_text (stream file) = Some text ->
    strip text <> [] ->
    openai (AppNew.chat_request (new_prompt request text)) = inr response ->
    choices response = choice :: rest ->
    TTLCache.setitem now (response_cache w) (new_cache_key request file)
      (length (heap w)) = Some cache' ->
    new_path now request openai w
      {| body := AppNew.result_of response choice; status := 200 |}
      {| heap := heap w ++ [AppNew.result_of response choice];
         response_cache := cache';
         calls := ChatCompletion (AppNew.chat_request (new_prompt request text))
                  :: PdfRead file :: calls w |}.

(** The prompt app.py builds for a request and an extracted text. *)
Definition old_prompt (request : Request) (case_text : pystr) : pystr :=
  App.prompt (form_get request "role" (str "student"))
    (form_get request "caseName" (str "Case")) case_text.


(** ** Sample requests *)

Definition sample_text : pystr := str "Smith v. Jones, 123 U.S. 456 (2020).".

Definition sample_pdf : pdf := Pdf [PageText (Some sample_text)].

Definition corrupted_pdf : pdf :=
  NotAPdf {| exn_class_of := PdfReadError; exn_text := str "EOF marker not found" |}.

(** A text of 4001 characters whose last one, [@], occurs in no template. *)
Definition long_text : pystr := repeat 97%N 4000 ++ [64%N].

Definition long_pdf : pdf := Pdf [PageText (Some long_text)].

Definition upload_file (name : string) (d : pdf) : FileStorage :=
  {| filename := str name; stream := d |}.

(** A request with one upload in [field] and the given form fields. *)
Definition upload (field name : string) (d : pdf) (fields : gmap string pystr)
  : Request :=
  {| content_length := 2048;
     files := {[ field := upload_file name d ]};
     form := fields |}.

(** A completion service that answers, and one that rejects the API key. *)
Definition answering : Completion :=
  fun _ => inr {| choices := [{| content := Some (str "## ISSUE") |}];
                  response_model := str "gpt-4";
                  usage := {[ "total_tokens" := 42 ]} |}.

Definition rejecting_key : Completion :=
  fun _ => inl {| exn_class_of := AuthenticationError;
                  exn_text := str "Incorrect API key provided" |}.

(** The world after app_new.py served a first upload of [a.pdf]. *)
Definition world_after_first : World :=
  (AppNew.generate_irac 0 (upload "file" "a.pdf" sample_pdf ∅) answering
     initial_world).2.

Definition first_response : Response :=
  {| body := {[ "analysis" := JStr (str "## ISSUE");
                "model" := JStr (str "gpt-4");
                "usage" := JObject {[ "total_tokens" := 42 ]};
                "cached" := JBool false ]};
     status := 200 |}.

(** ** Start-up configuration

    The module-level statements that read the process environment. *)

(** [s.split(sep)] for a one-character separator. *)
Fixpoint split (sep : char) (s : pystr) : list pystr :=
  match s with
  | [] => [[]]
  | c :: s' =>
      if (c =? sep)%N then [] :: split sep s'
      else match split sep s' with
           | piece :: rest => (c :: piece) :: rest
           | [] => [[c]]
           end
  end.

(** [not x] for a value that is [None] or a string. *)
Definition falsy (x : option pystr) : bool :=
  match x with
  | None => true
  | Some [] => true
  | Some (_ :: _) => false
  end.

(** The [origins] of the CORS configuration (lines 54-60 of app.py, 55-61
    of app_new.py): [os.getenv('ALLOWED_ORIGINS', '*').split(',')]. *)
Definition allowed_origins (env : gmap string pystr) : list pystr :=
  split 44%N (default (str "*") (env !! "ALLOWED_ORIGINS")).

(** Lines 64-67 of app_new.py: the API key, or the [ValueError] that stops
    the import. *)
Definition new_api_key (env : gmap string pystr) : exn + pystr :=
  let api_key := env !! "OPENAI_API_KEY" in
  if falsy api_key
  then inl {| exn_class_of := ValueError;
              exn_text := str "OPENAI_API_KEY environment variable is required" |}
  else inr (default [] api_key).

(** A lowercase hexadecimal digit. *)
Definition hex_char (c : char) : Prop :=
  (48 <= c <= 57)%N \/ (97 <= c <= 102)%N.

(** A printable ASCII character. *)
Definition ascii_printable (c : char) : Prop := (32 <= c <= 126)%N.

(** ** Invariants of the worlds the server reaches *)

(** A dict built by the literal of lines 213-218 of app_new.py. *)
Definition result_object (d : dict) : Prop :=
  exists response choice, d = AppNew.result_of response choice.

(** The keys of the cache, least recently used first. *)
Definition cache_keys (w : World) : list pystr :=
  map fst (TTLCache.links (response_cache w)).

(** A Unicode scalar value: a code point that is no surrogate. What the
    framework decodes from a request holds no others. *)
Definition scalar_value (c : char) : Prop :=
  ((c < 55296)%N \/ (57343 < c)%N) /\ (c < 1114112)%N.

(** The four shapes of an escaped character in the JSON text: itself, a
    two-character escape, [\uXXXX], or a surrogate pair. *)
Inductive escaped (c : char) : pystr -> Prop :=
| escaped_plain :
    (32 <= c <= 126)%N -> c <> 92%N -> c <> 34%N -> escaped c [c]
| escaped_short e :
    In (c, e) [(92, 92); (34, 34); (8, 98); (12, 102); (10, 110); (13, 114);
               (9, 116)]%N ->
    escaped c [92%N; e]
| escaped_bmp :
    (c < 55296)%N \/ (57343 < c < 65536)%N ->
    escaped c (92%N :: 117%N :: hex4 c)
| escaped_astral :
    (65536 <= c < 1114112)%N ->
    escaped c (92%N :: 117%N :: hex4 (55296 + (c - 65536) / 1024) ++
               92%N :: 117%N :: hex4 (56320 + (c - 65536) mod 1024)).

(** ** More sample requests *)

(** A completion service whose single choice has the given content. *)
Definition answering_with (c : option pystr) : Completion :=
  fun _ => inr {| choices := [{| content := c |}];
                  response_model := str "gpt-4";
                  usage := {[ "total_tokens" := 7 ]} |}.

(** The case name [Unnamed Case] followed by the control character BEL. *)
Definition belled_case_name : pystr := str "Unnamed Case" ++ [7%N].

(** The [i]-th of a series of uploads that differ in the case name. *)
Definition numbered (i : nat) : Request :=
  upload "file" "a.pdf" sample_pdf {[ "case_name" := repeat 97%N (S i) ]}.

(** The world after the server answered the uploads [numbered 0] to
    [numbered (n - 1)] at time 0. *)
Definition world_after (n : nat) : World :=
  fold_left (fun w i => (AppNew.generate_irac 0 (numbered i) answering w).2)
    (seq 0 n) initial_world.

(** * Properties *)

(** ** Python strings *)

Section StringFacts.

Lemma lstrip_nil_iff (s : pystr) : lstrip s = [] <-> forallb isspace s = true.
Proof.
  induction s as [|c s IH]; simpl; [tauto|].
  destruct (isspace c); simpl; [exact IH|]. split; discriminate.
Qed.

Lemma lstrip_head (s : pystr) (c : char) (t : pystr) :
  lstrip s = c :: t -> isspace c = false.
Proof.
  induction s as [|a s IH]; simpl; [discriminate|].
  destruct (isspace a) eqn:Ea; [exact IH|]. congruence.
Qed.

(** [not s.strip()] holds exactly when every character of [s] is white
    space. *)
Lemma strip_nil_iff (s : pystr) : strip s = [] <-> forallb isspace s = true.
Proof.
  unfold strip, rstrip. split.
  - intros H. apply lstrip_nil_iff.
    destruct (lstrip s) as [|c t] eqn:E; [reflexivity|].
    assert (Hr : lstrip (rev (c :: t)) = []).
    { apply (f_equal (@rev _)) in H. rewrite rev_involutive in H. exact H. }
    apply lstrip_nil_iff in Hr.
    assert (Hc : isspace c = true).
    { rewrite forallb_forall in Hr. apply Hr. rewrite <- in_rev. left. reflexivity. }
    apply lstrip_head in E. congruence.
  - intros H. apply lstrip_nil_iff in H. rewrite H. reflexivity.
Qed.

Lemma join_blank (sep : pystr) (parts : list pystr) :
  forallb isspace sep = true ->
  forallb (forallb isspace) parts = true ->
  forallb isspace (join sep parts) = true.
Proof.
  intros Hsep. induction parts as [|p rest IH]; [reflexivity|].
  cbn [forallb]. intros [Hp Hrest]%andb_true_iff.
  destruct rest as [|q rest]; [exact Hp|].
  change (join sep (p :: q :: rest)) with (p ++ sep ++ join sep (q :: rest)).
  rewrite !forallb_app, Hp, Hsep, (IH Hrest). reflexivity.
Qed.

Lemma concat_blank (parts : list pystr) :
  forallb (forallb isspace) parts = true ->
  forallb isspace (concat parts) = true.
Proof.
  induction parts as [|p rest IH]; [reflexivity|].
  cbn [forallb concat]. intros [Hp Hrest]%andb_true_iff.
  rewrite forallb_app, Hp, (IH Hrest). reflexivity.
Qed.

Lemma contains_char_nonempty (c : char) (s : pystr) :
  contains_char c s = true -> s <> [].
Proof. destruct s; [discriminate|congruence]. Qed.

End StringFacts.

(** ** The input sanitizer *)

Section Sanitizer.

Definition printable_or_newline (c : char) : Prop :=
  (32 <= c <= 126)%N \/ c = 10%N.

Lemma not_printable_false (c : char) :
  not_printable c = false <-> printable_or_newline c.
Proof.
  unfold not_printable, printable_or_newline.
  rewrite negb_false_iff, orb_true_iff, andb_true_iff,
    !N.leb_le, N.eqb_eq. tauto.
Qed.

Lemma re_sub_class_delete_Forall (cls : char -> bool) (s : pystr) :
  Forall (fun c => cls c = false) (re_sub_class cls [] s).
Proof.
  induction s as [|c s IH]; [constructor|].
  unfold re_sub_class in *. cbn [flat_map].
  destruct (cls c) eqn:E; [exact IH|]. constructor; assumption.
Qed.

Lemma re_sub_class_delete_fixed (cls : char -> bool) (s : pystr) :
  Forall (fun c => cls c = false) s -> re_sub_class cls [] s = s.
Proof.
  induction 1 as [|c s Hc _ IH]; [reflexivity|].
  unfold re_sub_class in *. cbn [flat_map]. rewrite Hc, IH. reflexivity.
Qed.

Lemma sanitize_input_sub (t : pystr) :
  sanitize_input (Some t) = re_sub_class not_printable [] t.
Proof. destruct t; reflexivity. Qed.

End Sanitizer.

(** C6. For every input the sanitizer's output holds only characters in
    0x20-0x7E or newline; the empty string and [None] give the empty string;
    and sanitizing a sanitized string leaves it unchanged. *)
Theorem sanitize_input_printable_idempotent :
  forall text : option pystr,
    Forall printable_or_newline (sanitize_input text) /\
    sanitize_input None = [] /\
    sanitize_input (Some []) = [] /\
    sanitize_input (Some (sanitize_input text)) = sanitize_input text.
Proof.
  intros text.
  assert (H : Forall (fun c => not_printable c = false) (sanitize_input text)).
  { destruct text as [t|]; [|constructor].
    rewrite sanitize_input_sub. apply re_sub_class_delete_Forall. }
  repeat split; try reflexivity.
  - eapply Forall_impl; [exact H|]. intros c. apply not_printable_false.
  - rewrite sanitize_input_sub. apply re_sub_class_delete_fixed, H.
Qed.

(** ** The cache *)

Section CacheFacts.
Context {V : Type}.
Implicit Types (c : TTLCache.t V) (l : list (pystr * TTLCache.link V)).
Implicit Types (k : pystr) (x : TTLCache.link V).

Lemma find_app k l1 l2 :
  TTLCache.find k (l1 ++ l2) =
  match TTLCache.find k l1 with
  | Some x => Some x
  | None => TTLCache.find k l2
  end.
Proof.
  induction l1 as [|[k' x] l1 IH]; [reflexivity|].
  cbn [app TTLCache.find]. destruct (decide (k' = k)); [reflexivity|exact IH].
Qed.

Lemma find_remove k l : TTLCache.find k (TTLCache.remove k l) = None.
Proof.
  unfold TTLCache.remove. induction l as [|[k' x] l IH]; [reflexivity|].
  rewrite filter_cons. cbn [fst]. destruct (decide (k' <> k)) as [Hne|_]; [|exact IH].
  cbn [TTLCache.find]. destruct (decide (k' = k)); [contradiction|exact IH].
Qed.

Lemma find_elem_of k x l : TTLCache.find k l = Some x -> (k, x) ∈ l.
Proof.
  induction l as [|[k' y] l IH]; [discriminate|].
  cbn [TTLCache.find]. destruct (decide (k' = k)) as [->|_].
  - intros [= ->]. left.
  - intros H. right. exact (IH H).
Qed.

Lemma find_singleton k x : TTLCache.find k [(k, x)] = Some x.
Proof. cbn [TTLCache.find]. destruct (decide (k = k)); [reflexivity|contradiction]. Qed.

Lemma make_room_subseteq n l p : p ∈ TTLCache.make_room n l -> p ∈ l.
Proof.
  induction l as [|q l IH]; [trivial|].
  cbn [TTLCache.make_room]. destruct (bool_decide _); [|trivial].
  intros H. right. exact (IH H).
Qed.

Lemma remove_subseteq k l p : p ∈ TTLCache.remove k l -> p ∈ l.
Proof. unfold TTLCache.remove. rewrite list_elem_of_filter. tauto. Qed.

Lemma expire_subseteq now l p : p ∈ TTLCache.expire now l -> p ∈ l.
Proof. unfold TTLCache.expire. rewrite list_elem_of_filter. tauto. Qed.

(** [key in cache] says that the key has a link that has not expired. *)
Lemma contains_true now c k :
  TTLCache.contains now c k = true <->
  exists x, TTLCache.find k (TTLCache.links c) = Some x /\ now < TTLCache.expires x.
Proof.
  unfold TTLCache.contains. destruct (TTLCache.find k (TTLCache.links c)) as [x|].
  - rewrite bool_decide_eq_true. split; [eauto|]. intros (y & [= ->] & H). exact H.
  - split; [discriminate|]. intros (y & [=] & _).
Qed.

(** A lookup that follows a successful [in] test at the same clock reading
    gives the stored value; the links are only reordered. *)
Lemma getitem_live now c k x :
  TTLCache.find k (TTLCache.links c) = Some x ->
  now < TTLCache.expires x ->
  TTLCache.getitem now c k =
  Some (TTLCache.value x,
        TTLCache.with_links c (TTLCache.remove k (TTLCache.links c) ++ [(k, x)])).
Proof.
  intros Hf Hlt. unfold TTLCache.getitem. rewrite Hf.
  rewrite bool_decide_eq_true_2 by exact Hlt. reflexivity.
Qed.

Lemma getitem_Some now c k v c' :
  TTLCache.getitem now c k = Some (v, c') ->
  exists x, TTLCache.find k (TTLCache.links c) = Some x /\ v = TTLCache.value x /\
            c' = TTLCache.with_links c (TTLCache.remove k (TTLCache.links c) ++ [(k, x)]).
Proof.
  unfold TTLCache.getitem. destruct (TTLCache.find k (TTLCache.links c)) as [x|]; [|discriminate].
  destruct (bool_decide _); [|discriminate]. intros [= <- <-]. eauto.
Qed.

Lemma getitem_links now c k v c' p :
  TTLCache.getitem now c k = Some (v, c') ->
  p ∈ TTLCache.links c' -> p ∈ TTLCache.links c.
Proof.
  intros (x & Hf & _ & ->)%getitem_Some. cbn [TTLCache.with_links TTLCache.links].
  rewrite elem_of_app, list_elem_of_singleton. intros [H| ->].
  - exact (remove_subseteq _ _ _ H).
  - exact (find_elem_of _ _ _ Hf).
Qed.

Lemma setitem_Some now c k v c' :
  TTLCache.setitem now c k v = Some c' ->
  exists l, (forall p, p ∈ l -> p ∈ TTLCache.links c) /\
    c' = TTLCache.with_links c
           (TTLCache.remove k l ++
            [(k, {| TTLCache.value := v; TTLCache.expires := now + TTLCache.ttl c |})]).
Proof.
  unfold TTLCache.setitem. destruct (bool_decide _); [discriminate|].
  intros [= <-]. eexists. split; [|reflexivity].
  intros p. destruct (TTLCache.find k _).
  - apply expire_subseteq.
  - intros H%make_room_subseteq. exact (expire_subseteq _ _ _ H).
Qed.

(** After [cache[key] = v] at [now] the key is found, with [v], until
    [now + ttl]. *)
Lemma setitem_find now c k v c' :
  TTLCache.setitem now c k v = Some c' ->
  TTLCache.find k (TTLCache.links c') =
  Some {| TTLCache.value := v; TTLCache.expires := now + TTLCache.ttl c |}.
Proof.
  intros (l & _ & ->)%setitem_Some. cbn [TTLCache.with_links TTLCache.links].
  rewrite find_app, find_remove. apply find_singleton.
Qed.

Lemma setitem_links now c k v c' p :
  TTLCache.setitem now c k v = Some c' ->
  p ∈ TTLCache.links c' ->
  p = (k, {| TTLCache.value := v; TTLCache.expires := now + TTLCache.ttl c |}) \/
  p ∈ TTLCache.links c.
Proof.
  intros (l & Hl & ->)%setitem_Some. cbn [TTLCache.with_links TTLCache.links].
  rewrite elem_of_app, list_elem_of_singleton. intros [H|H]; [right|left; exact H].
  apply Hl. exact (remove_subseteq _ _ _ H).
Qed.

Lemma setitem_params now c k v c' :
  TTLCache.setitem now c k v = Some c' ->
  TTLCache.maxsize c' = TTLCache.maxsize c /\ TTLCache.ttl c' = TTLCache.ttl c.
Proof. intros (l & _ & ->)%setitem_Some. split; reflexivity. Qed.

Lemma getitem_params now c k v c' :
  TTLCache.getitem now c k = Some (v, c') ->
  TTLCache.maxsize c' = TTLCache.maxsize c /\ TTLCache.ttl c' = TTLCache.ttl c.
Proof. intros (x & _ & _ & ->)%getitem_Some. split; reflexivity. Qed.

Lemma setitem_is_Some now c k v :
  (1 <= TTLCache.maxsize c)%nat -> is_Some (TTLCache.setitem now c k v).
Proof.
  intros H. unfold TTLCache.setitem.
  rewrite bool_decide_eq_false_2 by lia. eauto.
Qed.

(** Inserting never grows the store past [maxsize]. *)
Lemma make_room_length n l :
  (1 <= n)%nat -> (length (TTLCache.make_room n l) + 1 <= n)%nat.
Proof.
  intros Hn. induction l as [|q l IH]; [cbn; lia|].
  cbn [TTLCache.make_room]. case_bool_decide; [exact IH|lia].
Qed.

End CacheFacts.

(** ** Running a handler *)

Ltac py_unfold :=
  unfold request_files, files_getitem, cache_contains, cache_getitem,
    cache_setitem, deref, new_dict, dict_setitem, create, first_choice,
    PdfReader, App.content_strip, log_call;
  unfold try_except, bind, when, return_, ret, raise, reraise;
  cbv beta iota zeta.

Ltac py_red :=
  cbn [negb andb orb fst snd heap response_cache calls logged];
  cbv beta iota zeta.

Section Extraction.

Lemma new_page_loop_spec (ps : list page) (acc : pystr) (w : World) :
  AppNew.page_loop acc ps w =
  (match texts_of ps with
   | inr ts => Normal (acc ++ concat ts)
   | inl e => Raise e
   end, w).
Proof.
  revert acc. induction ps as [|[t|e] ps IH]; intros acc;
    cbn [AppNew.page_loop texts_of].
  - unfold ret. cbn [concat]. rewrite app_nil_r. reflexivity.
  - unfold bind, extract_text, ret. rewrite IH.
    destruct (texts_of ps); [reflexivity|]. cbn [concat]. rewrite app_assoc. reflexivity.
  - reflexivity.
Qed.


(** app_new.py's extractor logs one read and gives the text or raises
    [ValueError]. *)
Lemma new_extract_spec (file : FileStorage) (w : World) :
  AppNew.extract_text_from_pdf file w =
  (match new_text (stream file) with
   | Some t => Normal t
   | None => Raise {| exn_class_of := ValueError;
                      exn_text := str "Failed to extract text from PDF" |}
   end, logged (PdfRead file) w).
Proof.
  unfold AppNew.extract_text_from_pdf, new_text. py_unfold.
  destruct (stream file) as [e|ps]; [reflexivity|].
  rewrite new_page_loop_spec. destruct (texts_of ps); reflexivity.
Qed.

Lemma texts_of_blank (ps : list page) (ts : list pystr) :
  texts_of ps = inr ts -> forallb blank_page ps = true ->
  forallb (forallb isspace) ts = true.
Proof.
  revert ts. induction ps as [|[t|e] ps IH]; intros ts; cbn [texts_of forallb].
  - intros [= <-]. reflexivity.
  - destruct (texts_of ps) as [e|ts']; [discriminate|]. intros [= <-].
    intros [Ht Hps]%andb_true_iff. cbn [forallb blank_page] in *.
    rewrite Ht. exact (IH _ eq_refl Hps).
  - discriminate.
Qed.

Lemma texts_of_failing (ps : list page) :
  existsb failing_page ps = true -> exists e, texts_of ps = inl e.
Proof.
  induction ps as [|[t|e] ps IH]; cbn [existsb failing_page texts_of orb].
  - discriminate.
  - intros H. destruct (IH H) as [e ->]. eauto.
  - eauto.
Qed.

(** An unreadable document makes app_new.py's extractor raise or give a
    blank text. *)
Lemma new_text_unreadable (d : pdf) :
  unreadable d = true ->
  new_text d = None \/ exists t, new_text d = Some t /\ strip t = [].
Proof.
  destruct d as [e|ps]; [left; reflexivity|]. cbn [unreadable new_text].
  intros [H|H]%orb_true_iff.
  - destruct (texts_of_failing _ H) as [e ->]. left. reflexivity.
  - destruct (texts_of ps) as [e|ts] eqn:E; [left; reflexivity|].
    right. eexists. split; [reflexivity|].
    apply strip_nil_iff, concat_blank. exact (texts_of_blank _ _ E H).
Qed.

End Extraction.

(** ** app_new.py: every run follows one of the paths *)

Section NewRun.
Variables (now : Z) (request : Request) (openai : Completion) (w : World).

Lemma allowed_file_nonempty (name : pystr) :
  allowed_file name = true -> name <> [].
Proof.
  unfold allowed_file. intros [H _]%andb_true_iff.
  exact (contains_char_nonempty _ _ H).
Qed.

(** Setting [cached] on the fresh result changes nothing: the literal
    already holds [False]. *)
Lemma result_cached (response : ChatResponse) (choice : Choice) :
  AppNew.result_of response choice !! "cached" = Some (JBool false).
Proof. reflexivity. Qed.

Lemma result_setitem_cached (response : ChatResponse) (choice : Choice) :
  <["cached" := JBool false]> (AppNew.result_of response choice) =
  AppNew.result_of response choice.
Proof. apply insert_id, result_cached. Qed.

Lemma alter_fresh (h : list dict) (d : dict) (f : dict -> dict) :
  alter f (length h) (h ++ [d]) = h ++ [f d].
Proof.
  rewrite <- (Nat.add_0_r (length h)) at 1. rewrite alter_app_r. reflexivity.
Qed.

Lemma lookup_fresh (h : list dict) (d : dict) :
  (h ++ [d]) !! length h = Some d.
Proof. apply list_lookup_middle. reflexivity. Qed.

(** The handler always executes a [return], along one of the paths. *)
Lemma new_run :
  exists r w',
    AppNew.generate_irac now request openai w = (Return r, w') /\
    new_path now request openai w r w'.
Proof.
  unfold AppNew.generate_irac. py_unfold.
  destruct (MAX_CONTENT_LENGTH <? content_length request) eqn:Hlen.
  { apply Z.ltb_lt in Hlen. do 2 eexists. split; [reflexivity|].
    apply new_path_too_large, Hlen. }
  apply Z.ltb_ge in Hlen. py_red.
  destruct (files request !! "file") as [file|] eqn:Hf; cycle 1.
  { do 2 eexists. split; [reflexivity|]. apply new_path_no_file; assumption. }
  rewrite bool_decide_eq_false_2 by congruence. py_red.
  case_bool_decide as Hname.
  { do 2 eexists. split; [reflexivity|]. eapply new_path_no_name; eassumption. }
  py_red.
  destruct (allowed_file (filename file)) eqn:Hext; py_red; cycle 1.
  { do 2 eexists. split; [reflexivity|]. eapply new_path_bad_type; eassumption. }
  assert (Hvalid : new_valid_upload request file) by (repeat split; assumption).
  fold (new_role request) (new_case_name request).
  fold (new_cache_key request file).
  destruct (TTLCache.contains now (response_cache w) (new_cache_key request file))
    eqn:Hc; py_red.
  { apply contains_true in Hc as (x & Hfind & Hlive).
    rewrite (getitem_live _ _ _ _ Hfind Hlive). py_red.
    destruct (heap w !! TTLCache.value x) as [d|] eqn:Hd.
    - do 2 eexists. split; [reflexivity|]. eapply new_path_hit; eassumption.
    - do 2 eexists. split; [reflexivity|]. eapply new_path_dangling; eassumption. }
  rewrite new_extract_spec.
  destruct (new_text (stream file)) as [text|] eqn:Ht; py_red; cycle 1.
  { do 2 eexists. split; [reflexivity|]. eapply new_path_extract_failed; eassumption. }
  case_bool_decide as Hblank; py_red.
  { do 2 eexists. split; [reflexivity|]. eapply new_path_blank; eassumption. }
  fold (new_prompt request text).
  destruct (openai (AppNew.chat_request (new_prompt request text)))
    as [e|response] eqn:Hs; py_red.
  { do 2 eexists. split; [reflexivity|]. eapply new_path_service_failed; eassumption. }
  destruct (choices response) as [|choice rest] eqn:Hch; py_red.
  { do 2 eexists. split; [reflexivity|]. eapply new_path_no_choice; eassumption. }
  destruct (TTLCache.setitem now (response_cache w) (new_cache_key request file)
              (length (heap w))) as [cache'|] eqn:Hset; py_red.
  - rewrite alter_fresh, result_setitem_cached, lookup_fresh.
    do 2 eexists. split; [reflexivity|]. eapply new_path_success; eassumption.
  - do 2 eexists. split; [reflexivity|]. eapply new_path_store_failed; eassumption.
Qed.

End NewRun.

(** ** app.py: every run follows one of the paths *)

Section OldRun.
Variables (request : Request) (openai : Completion) (w : World).


End OldRun.


(** ** Inverting a run *)

(** A run is a function of its inputs, so a run that is known to end with
    [r] in [w'] followed the path [new_run] gives. *)
Lemma new_run_inv now request openai w r w' :
  AppNew.generate_irac now request openai w = (Return r, w') ->
  new_path now request openai w r w'.
Proof.
  intros H. destruct (new_run now request openai w) as (r0 & w0 & Hrun & Hpath).
  rewrite Hrun in H. injection H as <- <-. exact Hpath.
Qed.

(** Closes the paths whose conditions contradict the hypotheses. *)
Ltac path_absurd :=
  repeat match goal with
  | H : new_valid_upload _ _ |- _ => destruct H as (? & ? & ?)
  end;
  simplify_eq;
  try match goal with
  | H : allowed_file ?n = true, H' : ?n = [] |- _ =>
      exfalso; exact (allowed_file_nonempty _ H H')
  | H : TTLCache.contains ?now ?c ?k = false,
    H1 : TTLCache.find ?k (TTLCache.links ?c) = Some ?x,
    H2 : ?now < TTLCache.expires ?x |- _ =>
      exfalso; assert (TTLCache.contains now c k = true)
        by (apply contains_true; eauto); congruence
  end;
  try lia; try congruence; try discriminate.

(** ** The worlds the server reaches *)

Section Reachable.

Lemma new_path_params now request openai w r w' :
  new_path now request openai w r w' ->
  TTLCache.maxsize (response_cache w') = TTLCache.maxsize (response_cache w) /\
  TTLCache.ttl (response_cache w') = TTLCache.ttl (response_cache w).
Proof.
  destruct 1; try (split; reflexivity).
  cbn [response_cache]. eapply setitem_params. eassumption.
Qed.

(** The cache keeps the parameters it was created with. *)
Lemma reachable_params w :
  reachable w ->
  TTLCache.maxsize (response_cache w) = 100%nat /\
  TTLCache.ttl (response_cache w) = 300.
Proof.
  induction 1 as [|w now request openai _ [IHm IHt]]; [split; reflexivity|].
  destruct (new_run now request openai w) as (r & w' & Hrun & Hpath).
  rewrite Hrun. cbn [snd].
  destruct (new_path_params _ _ _ _ _ _ Hpath) as [-> ->]. auto.
Qed.

Lemma cached_objects_ok_grow (w : World) (d : dict) (p : pystr * TTLCache.link loc) :
  (exists d0, heap w !! TTLCache.value p.2 = Some d0 /\
              d0 !! "cached" = Some (JBool false)) ->
  exists d0, (heap w ++ [d]) !! TTLCache.value p.2 = Some d0 /\
             d0 !! "cached" = Some (JBool false).
Proof.
  intros (d0 & Hd0 & Hc). exists d0. split; [|exact Hc].
  rewrite lookup_app_l; [exact Hd0|]. exact (lookup_lt_Some _ _ _ Hd0).
Qed.

(** A run keeps the invariant of the cached objects. *)
Lemma new_path_cached_ok now request openai w r w' :
  new_path now request openai w r w' ->
  cached_objects_ok w -> cached_objects_ok w'.
Proof.
  unfold cached_objects_ok.
  destruct 1 as [| | | |file x d Hv Hfind| file x Hv Hfind | | | |
                 |file text response choice rest
                 |file text response choice rest cache' Hv Hc Ht Hb Hs Hch Hset];
    intros Hok p Hp; cbn [heap response_cache logged touched TTLCache.links
                          TTLCache.with_links] in *; auto.
  - apply Hok. apply elem_of_app in Hp as [Hp|Hp].
    + exact (remove_subseteq _ _ _ Hp).
    + apply list_elem_of_singleton in Hp as ->. exact (find_elem_of _ _ _ Hfind).
  - apply Hok. apply elem_of_app in Hp as [Hp|Hp].
    + exact (remove_subseteq _ _ _ Hp).
    + apply list_elem_of_singleton in Hp as ->. exact (find_elem_of _ _ _ Hfind).
  - apply cached_objects_ok_grow, Hok, Hp.
  - destruct (setitem_links _ _ _ _ _ _ Hset Hp) as [->|Hold].
    + cbn [snd TTLCache.value]. eexists. split; [apply lookup_fresh|apply result_cached].
    + apply cached_objects_ok_grow, Hok, Hold.
Qed.

Lemma reachable_cached_ok w : reachable w -> cached_objects_ok w.
Proof.
  induction 1 as [|w now request openai _ IH].
  - intros p Hp. cbn in Hp. inversion Hp.
  - destruct (new_run now request openai w) as (r & w' & Hrun & Hpath).
    rewrite Hrun. cbn [snd]. exact (new_path_cached_ok _ _ _ _ _ _ Hpath IH).
Qed.

End Reachable.

(** ** The response cache (C1, C10) *)

(** A hit is answered from the cache: the body is the object the cache
    refers to, and neither the PDF reader nor the completion service is
    called. *)
Lemma new_hit now request openai w file x d :
  new_valid_upload request file ->
  TTLCache.find (new_cache_key request file) (TTLCache.links (response_cache w)) = Some x ->
  now < TTLCache.expires x ->
  heap w !! TTLCache.value x = Some d ->
  AppNew.generate_irac now request openai w =
  (Return {| body := d; status := 200 |}, touched w (new_cache_key request file) x).
Proof.
  intros Hv Hfind Hlive Hd.
  destruct (new_run now request openai w) as (r & w' & Hrun & Hpath).
  rewrite Hrun. destruct Hpath; path_absurd.
Qed.

(** A request that the completion service answered leaves its result in the
    cache, and the same request is then served from it until the entry
    expires. *)
Lemma new_second_request t1 t2 request openai1 openai2 w r1 w1 :
  reachable w ->
  AppNew.generate_irac t1 request openai1 w = (Return r1, w1) ->
  status r1 = 200 ->
  calls w1 <> calls w ->
  t2 < t1 + 300 ->
  exists w2,
    AppNew.generate_irac t2 request openai2 w1 = (Return r1, w2) /\
    calls w2 = calls w1.
Proof.
  intros Hreach Hrun Hstatus Hcalled Hlt.
  destruct (reachable_params _ Hreach) as [_ Httl].
  apply new_run_inv in Hrun.
  destruct Hrun as [| | | |file x d| | | | |
                    | |file text response choice rest cache' Hv Hc Ht Hb Hs Hch Hset];
    cbn [status error_response touched calls] in *; try discriminate;
    try contradiction.
  eexists. split.
  - eapply new_hit; [exact Hv| | |].
    + cbn [response_cache]. exact (setitem_find _ _ _ _ _ Hset).
    + cbn [TTLCache.expires]. rewrite Httl. exact Hlt.
    + cbn [TTLCache.value heap]. apply lookup_fresh.
  - reflexivity.
Qed.

(** C1. A request that passes upload validation and whose fingerprint has an
    unexpired cache entry gets the cached result with status 200, and the
    handler calls neither the PDF reader nor the completion service; in
    particular a request that was answered by the completion service is,
    when repeated within the 300 seconds of the TTL, answered with the same
    response and no further call. *)
Theorem cache_hit_skips_completion :
  (forall now request openai w file x d,
     new_valid_upload request file ->
     TTLCache.find (new_cache_key request file)
       (TTLCache.links (response_cache w)) = Some x ->
     now < TTLCache.expires x ->
     heap w !! TTLCache.value x = Some d ->
     exists w',
       AppNew.generate_irac now request openai w =
         (Return {| body := d; status := 200 |}, w') /\
       calls w' = calls w /\ heap w' = heap w) /\
  (forall t1 t2 request openai1 openai2 w r1 w1,
     reachable w ->
     AppNew.generate_irac t1 request openai1 w = (Return r1, w1) ->
     status r1 = 200 ->
     calls w1 <> calls w ->
     t2 < t1 + 300 ->
     exists w2,
       AppNew.generate_irac t2 request openai2 w1 = (Return r1, w2) /\
       calls w2 = calls w1).
Proof.
  split.
  - intros now request openai w file x d Hv Hfind Hlive Hd.
    eexists. split; [exact (new_hit _ _ _ _ _ _ _ Hv Hfind Hlive Hd)|].
    split; reflexivity.
  - exact new_second_request.
Qed.

(** C10. In every world the server reaches, a response of app_new.py's
    handler with status 200 has [cached] equal to [False], whether it was
    built from the completion or read from the cache. *)
Theorem cached_field_always_false :
  forall w now request openai r w',
    reachable w ->
    AppNew.generate_irac now request openai w = (Return r, w') ->
    status r = 200 ->
    body r !! "cached" = Some (JBool false).
Proof.
  intros w now request openai r w' Hreach Hrun Hstatus.
  apply reachable_cached_ok in Hreach. apply new_run_inv in Hrun.
  destruct Hrun as [| | | |file x d Hv Hfind Hlive Hd| | | | |
                    | |file text response choice rest cache'];
    cbn [status error_response body] in *; try discriminate.
  - destruct (Hreach _ (find_elem_of _ _ _ Hfind)) as (d' & Hd' & Hc).
    cbn [snd] in Hd'. congruence.
  - apply result_cached.
Qed.

(** ** Upload validation (C5) *)

(** C5. An upload whose file name has no allowed extension is answered with
    a 400-class error (400, or 413 when the body is also too long), and a
    body over 16 MiB is answered with 413; in both cases the world is left
    as it was, so the PDF reader was not called. *)
Theorem invalid_upload_rejected_before_extraction :
  forall now request openai w,
    (MAX_CONTENT_LENGTH < content_length request \/
     exists file, files request !! "file" = Some file /\
                  allowed_file (filename file) = false) ->
    exists message,
      AppNew.generate_irac now request openai w =
        (Return (error_response message
                   (if MAX_CONTENT_LENGTH <? content_length request
                    then 413 else 400)), w) /\
      In message ["File too large"; "No selected file";
                  "Invalid file type. Only PDF files are allowed."].
Proof.
  intros now request openai w H.
  destruct (new_run now request openai w) as (r & w' & Hrun & Hpath).
  rewrite Hrun.
  destruct (MAX_CONTENT_LENGTH <? content_length request) eqn:Hlen.
  - apply Z.ltb_lt in Hlen. destruct Hpath; path_absurd.
    eexists. split; [reflexivity|]. cbn. tauto.
  - apply Z.ltb_ge in Hlen. destruct H as [H|(file & Hf & Hext)]; [lia|].
    destruct Hpath; path_absurd; (eexists; split; [reflexivity|]; cbn; tauto).
Qed.

(** ** Unreadable documents (C4) *)

Lemma new_path_unreadable_no_completion now request openai w r w' file :
  new_path now request openai w r w' ->
  files request !! "file" = Some file ->
  unreadable (stream file) = true ->
  completions w' = completions w.
Proof.
  intros Hpath Hf Hu.
  destruct (new_text_unreadable _ Hu) as [Hnone|(t & Hsome & Hblank)];
    destruct Hpath; try reflexivity; path_absurd.
Qed.

(** C4, as amended. In app_new.py, when the upload passes validation and
    the request's fingerprint has no unexpired cache entry, a document that
    is corrupted or yields only white space is answered with status 400 and
    a message saying that the PDF could not be read or is empty; the only
    call made is the read of the document. The completion service is not
    called for such a document on any path, a cache hit included. *)
Theorem unreadable_upload_rejected :
  (forall now request openai w file,
     new_valid_upload request file ->
     TTLCache.contains now (response_cache w) (new_cache_key request file) = false ->
     unreadable (stream file) = true ->
     exists message,
       AppNew.generate_irac now request openai w =
         (Return (error_response message 400), logged (PdfRead file) w) /\
       (message = "The uploaded PDF appears to be empty or could not be read" \/
        message = "Error processing PDF file")) /\
  (forall now request openai w file,
     files request !! "file" = Some file ->
     unreadable (stream file) = true ->
     completions (AppNew.generate_irac now request openai w).2 = completions w).
Proof.
  split.
  - intros now request openai w file Hv Hmiss Hu.
    destruct (new_run now request openai w) as (r & w' & Hrun & Hpath).
    rewrite Hrun.
    destruct (new_text_unreadable _ Hu) as [Hnone|(t & Hsome & Hblank)];
      destruct Hpath; path_absurd; eauto.
  - intros now request openai w file Hf Hu.
    destruct (new_run now request openai w) as (r & w' & Hrun & Hpath).
    rewrite Hrun. cbn [snd].
    exact (new_path_unreadable_no_completion _ _ _ _ _ _ _ Hpath Hf Hu).
Qed.

(** ** The prompt and the text budget (C2) *)

Lemma app_split_6 (a b c d e x f : pystr) :
  a ++ b ++ c ++ d ++ e ++ x ++ f = (a ++ b ++ c ++ d ++ e) ++ x ++ f.
Proof. rewrite <- !app_assoc. reflexivity. Qed.

Lemma app_split_4 (a b c x f : pystr) :
  a ++ b ++ c ++ x ++ f = (a ++ b ++ c) ++ x ++ f.
Proof. rewrite <- !app_assoc. reflexivity. Qed.

(** C2, as amended. The prompt app.py builds embeds the first 3000
    characters of the extracted text and nothing of the rest; the prompt
    app_new.py builds embeds the whole text, whatever its length. *)
Theorem prompt_text_budget :
  forall request,
    (exists pre post, forall case_text,
       old_prompt request case_text = pre ++ take 3000 case_text ++ post) /\
    (forall case_text,
       old_prompt request case_text = old_prompt request (take 3000 case_text)) /\
    (exists pre post, forall text,
       new_prompt request text = pre ++ text ++ post).
Proof.
  intros request. split; [|split].
  - unfold old_prompt, App.prompt. eexists _, _. intros case_text.
    apply app_split_6.
  - intros case_text. unfold old_prompt, App.prompt.
    rewrite take_take, Nat.min_id. reflexivity.
  - unfold new_prompt, AppNew.build_prompt.
    case_bool_decide; unfold AppNew.student_prompt, AppNew.paralegal_prompt;
      eexists _, _; intros text; apply app_split_4.
Qed.

(** ** The role and the template (C7) *)

Lemma student_paralegal_differ (cn text cn' text' : pystr) :
  AppNew.student_prompt cn text <> AppNew.paralegal_prompt cn' text'.
Proof. unfold AppNew.student_prompt, AppNew.paralegal_prompt. discriminate. Qed.

(** C7, as amended. app_new.py selects the verbose student template exactly
    for the role [law_student] (also the default when the form has no role)
    and the condensed paralegal template for every other role, [paralegal]
    and [student] included; the two templates never give the same prompt. *)
Theorem role_selects_template :
  forall case_name text,
    AppNew.build_prompt (str "law_student") case_name text =
      AppNew.student_prompt case_name text /\
    AppNew.build_prompt (str "paralegal") case_name text =
      AppNew.paralegal_prompt case_name text /\
    AppNew.build_prompt (str "student") case_name text =
      AppNew.paralegal_prompt case_name text /\
    (forall role, role <> str "law_student" ->
       AppNew.build_prompt role case_name text =
         AppNew.paralegal_prompt case_name text) /\
    (forall request, form request !! "role" = None ->
       new_prompt request text =
         AppNew.student_prompt (new_case_name request) text) /\
    (forall case_name' text',
       AppNew.student_prompt case_name text <>
       AppNew.paralegal_prompt case_name' text').
Proof.
  intros case_name text. repeat split.
  - intros role Hrole. unfold AppNew.build_prompt.
    rewrite bool_decide_eq_false_2 by exact Hrole. reflexivity.
  - intros request Hrole. unfold new_prompt, new_role, form_get.
    rewrite Hrole. reflexivity.
  - intros cn' text'. apply student_paralegal_differ.
Qed.

(** ** The error envelope (C8) *)

(** C8. Every response of app_new.py's handler that is not a success
    (status 200) has a body that consists of the [error] field alone,
    holding one of the fixed messages of the handler: no text of an
    exception reaches it. *)
Theorem error_bodies_are_fixed_messages :
  forall now request openai w,
    exists r w',
      AppNew.generate_irac now request openai w = (Return r, w') /\
      (status r = 200 \/
       exists message, In message new_error_messages /\
         r = error_response message (status r) /\ In (status r) [400; 413; 500]).
Proof.
  intros now request openai w.
  destruct (new_run now request openai w) as (r & w' & Hrun & Hpath).
  exists r, w'. split; [exact Hrun|].
  destruct Hpath; cbn [status error_response];
    first [left; reflexivity
          |right; eexists; split; [|split; [reflexivity|]]; cbn; tauto].
Qed.

(** ** Failures of the completion service (C3) *)

Lemma calls_not_extended (l : list call) (a b : call) : l <> a :: b :: l.
Proof.
  intros H. apply (f_equal (@length call)) in H. cbn [length] in H. lia.
Qed.

(** C3, as amended. When app_new.py's handler has called the completion
    service and the call raised, an authentication failure like any other
    exception, the response has status 500 and a body that holds the fixed
    [error] message and neither an [analysis] nor a [summary] field. *)
Theorem completion_failure_is_answered_500 :
  forall now request openai w r w' c file e,
    AppNew.generate_irac now request openai w = (Return r, w') ->
    calls w' = ChatCompletion c :: PdfRead file :: calls w ->
    openai c = inl e ->
    r = error_response "Error generating analysis. Please try again later." 500 /\
    status r = 500 /\
    (exists message, body r !! "error" = Some (JStr message)) /\
    body r !! "analysis" = None /\ body r !! "summary" = None.
Proof.
  intros now request openai w r w' c file e Hrun Hcalls Hraise.
  apply new_run_inv in Hrun.
  assert (Hr : r = error_response "Error generating analysis. Please try again later." 500).
  { destruct Hrun; cbn [calls logged touched] in Hcalls;
      try (exfalso; exact (calls_not_extended _ _ _ Hcalls));
      try discriminate Hcalls; try reflexivity;
      injection Hcalls as <- <-; congruence. }
  subst r. split; [reflexivity|]. split; [reflexivity|].
  split; [eexists; reflexivity|]. split; reflexivity.
Qed.

(** ** Examples *)

Example md5_empty : MD5.hexdigest [] = str "d41d8cd98f00b204e9800998ecf8427e".
Proof. vm_compute. reflexivity. Qed.

Example md5_abc :
  MD5.hexdigest (encode (str "abc")) = str "900150983cd24fb0d6963f7d28e17f72".
Proof. vm_compute. reflexivity. Qed.

Example cache_key_sample :
  generate_cache_key [str "a.pdf"; str "law_student"; str "Unnamed Case"] =
  str "beff896fc256cd6c23a275aabd336b58".
Proof. vm_compute. reflexivity. Qed.

Example allowed_file_samples :
  allowed_file (str "brief.txt") = false /\ allowed_file (str "brief.PDF") = true /\
  allowed_file (str "pdf") = false /\ allowed_file (str "a.pdf.exe") = false.
Proof. vm_compute. repeat split. Qed.

Example sanitize_input_sample :
  sanitize_input (Some [83; 109; 105; 116; 104; 9; 233; 10; 118; 46; 127]%N) =
  [83; 109; 105; 116; 104; 10; 118; 46]%N.
Proof. reflexivity. Qed.

Example with_docket_samples :
  App.Tail.with_docket (str "Smith v. Jones") (str "23-939") =
    str "Smith v. Jones (Docket No. 23-939)" /\
  App.Tail.with_docket [] (str "23-939") = str "Docket No. 23-939" /\
  App.Tail.with_docket (str "Smith v. Jones") [] = str "Smith v. Jones".
Proof. vm_compute. repeat split. Qed.

Example first_upload_is_cached :
  AppNew.generate_irac 0 (upload "file" "a.pdf" sample_pdf ∅) answering initial_world =
  (Return first_response, world_after_first) /\
  TTLCache.links (response_cache world_after_first) =
    [(str "beff896fc256cd6c23a275aabd336b58",
      {| TTLCache.value := 0%nat; TTLCache.expires := 300 |})].
Proof. vm_compute. split; reflexivity. Qed.

(** C1, on the sample upload: served from the cache at 60 s and at 299 s,
    by a service that would reject the call. *)
Lemma cache_hit_skips_completion_witness :
  (exists w',
     AppNew.generate_irac 60 (upload "file" "a.pdf" sample_pdf ∅) rejecting_key
       world_after_first = (Return first_response, w') /\
     calls w' = calls world_after_first /\ heap w' = heap world_after_first) /\
  (exists w2,
     AppNew.generate_irac 299 (upload "file" "a.pdf" sample_pdf ∅) rejecting_key
       world_after_first = (Return first_response, w2) /\
     calls w2 = calls world_after_first).
Proof.
  split.
  - apply (proj1 cache_hit_skips_completion 60 (upload "file" "a.pdf" sample_pdf ∅)
             rejecting_key world_after_first (upload_file "a.pdf" sample_pdf)
             {| TTLCache.value := 0%nat; TTLCache.expires := 300 |}
             (body first_response)).
    + repeat split; vm_compute; congruence.
    + vm_compute. reflexivity.
    + reflexivity.
    + vm_compute. reflexivity.
  - apply (proj2 cache_hit_skips_completion 0 299 (upload "file" "a.pdf" sample_pdf ∅)
             answering rejecting_key initial_world first_response world_after_first).
    + apply reachable_initial.
    + vm_compute. reflexivity.
    + reflexivity.
    + vm_compute. discriminate.
    + reflexivity.
Defined.

(** C10, on the sample upload: the response read from the cache at 60 s. *)
Lemma cached_field_always_false_witness :
  reachable world_after_first /\
  (AppNew.generate_irac 60 (upload "file" "a.pdf" sample_pdf ∅) rejecting_key
     world_after_first).1 = Return first_response /\
  body first_response !! "cached" = Some (JBool false).
Proof.
  assert (Hreach : reachable world_after_first).
  { exact (reachable_step initial_world 0 (upload "file" "a.pdf" sample_pdf ∅)
             answering reachable_initial). }
  split; [exact Hreach|]. split; [vm_compute; reflexivity|].
  eapply (cached_field_always_false world_after_first 60
            (upload "file" "a.pdf" sample_pdf ∅) rejecting_key first_response).
  - exact Hreach.
  - vm_compute. reflexivity.
  - reflexivity.
Defined.

(** C5, on [brief.txt] and on a body of 16 MiB + 1. *)
Lemma invalid_upload_rejected_witness :
  (exists message,
     AppNew.generate_irac 0 (upload "file" "brief.txt" sample_pdf ∅) answering
       initial_world = (Return (error_response message 400), initial_world) /\
     In message ["File too large"; "No selected file";
                 "Invalid file type. Only PDF files are allowed."]) /\
  (exists message,
     AppNew.generate_irac 0
       {| content_length := 16777217;
          files := {[ "file" := upload_file "a.pdf" sample_pdf ]};
          form := ∅ |} answering initial_world =
     (Return (error_response message 413), initial_world) /\
     In message ["File too large"; "No selected file";
                 "Invalid file type. Only PDF files are allowed."]).
Proof.
  split.
  - apply (invalid_upload_rejected_before_extraction 0
             (upload "file" "brief.txt" sample_pdf ∅) answering initial_world).
    right. exists (upload_file "brief.txt" sample_pdf).
    split; vm_compute; reflexivity.
  - apply (invalid_upload_rejected_before_extraction 0
             {| content_length := 16777217;
                files := {[ "file" := upload_file "a.pdf" sample_pdf ]};
                form := ∅ |} answering initial_world).
    left. vm_compute. reflexivity.
Defined.

(** C4 as stated fails: the cache is looked up before the document is read,
    so a corrupted [a.pdf] that arrives after a readable one of the same
    name, role and case name is answered 200 with the first one's
    analysis. *)
Lemma corrupted_upload_served_from_cache :
  unreadable corrupted_pdf = true /\
  reachable world_after_first /\
  (AppNew.generate_irac 60 (upload "file" "a.pdf" corrupted_pdf ∅) rejecting_key
     world_after_first).1 = Return first_response /\
  status first_response = 200.
Proof.
  split; [reflexivity|]. split; [|split; [vm_compute; reflexivity|reflexivity]].
  exact (reachable_step initial_world 0 (upload "file" "a.pdf" sample_pdf ∅)
           answering reachable_initial).
Qed.

(** C4 as amended, on the corrupted upload. *)
Lemma unreadable_upload_rejected_witness :
  (exists message,
     AppNew.generate_irac 0 (upload "file" "a.pdf" corrupted_pdf ∅) answering
       initial_world =
       (Return (error_response message 400),
        logged (PdfRead (upload_file "a.pdf" corrupted_pdf)) initial_world) /\
     (message = "The uploaded PDF appears to be empty or could not be read" \/
      message = "Error processing PDF file")) /\
  completions
    (AppNew.generate_irac 60 (upload "file" "a.pdf" corrupted_pdf ∅) answering
       world_after_first).2 = completions world_after_first.
Proof.
  split.
  - apply (proj1 unreadable_upload_rejected 0 (upload "file" "a.pdf" corrupted_pdf ∅)
             answering initial_world (upload_file "a.pdf" corrupted_pdf)).
    + repeat split; vm_compute; congruence.
    + vm_compute. reflexivity.
    + reflexivity.
  - apply (proj2 unreadable_upload_rejected 60
             (upload "file" "a.pdf" corrupted_pdf ∅) answering world_after_first
             (upload_file "a.pdf" corrupted_pdf)).
    + vm_compute. reflexivity.
    + reflexivity.
Defined.

(** C2 as stated fails: app_new.py sends the whole text. The character at
    index 4000 of the extracted text, past any budget of 3000 to 4000,
    occurs in the prompt the handler sends, and it would not occur in a
    prompt built from the first 4000 characters. *)
Lemma new_prompt_exceeds_budget :
  nth 4000 long_text 0%N = 64%N /\
  calls (AppNew.generate_irac 0 (upload "file" "a.pdf" long_pdf ∅) answering
           initial_world).2 =
    [ChatCompletion
       (AppNew.chat_request
          (AppNew.build_prompt (str "law_student") (str "Unnamed Case") long_text));
     PdfRead (upload_file "a.pdf" long_pdf)] /\
  contains_char 64%N
    (AppNew.build_prompt (str "law_student") (str "Unnamed Case") long_text) = true /\
  contains_char 64%N
    (AppNew.build_prompt (str "law_student") (str "Unnamed Case")
       (take 4000 long_text)) = false.
Proof. vm_compute. repeat split. Qed.

(** C7 as stated fails: with role [student] app_new.py sends the paralegal
    prompt, which differs from the student prompt. *)
Lemma student_role_gets_paralegal_prompt :
  calls (AppNew.generate_irac 0
           (upload "file" "a.pdf" sample_pdf {[ "role" := str "student" ]})
           answering initial_world).2 =
    [ChatCompletion
       (AppNew.chat_request
          (AppNew.paralegal_prompt (str "Unnamed Case") sample_text));
     PdfRead (upload_file "a.pdf" sample_pdf)] /\
  AppNew.paralegal_prompt (str "Unnamed Case") sample_text <>
  AppNew.student_prompt (str "Unnamed Case") sample_text.
Proof.
  split; [vm_compute; reflexivity|].
  intros H. symmetry in H. exact (student_paralegal_differ _ _ _ _ H).
Qed.

(** C7 as amended, on the roles [Student] and on a form without a role. *)
Lemma role_selects_template_witness :
  AppNew.build_prompt (str "Student") (str "Unnamed Case") sample_text =
    AppNew.paralegal_prompt (str "Unnamed Case") sample_text /\
  new_prompt (upload "file" "a.pdf" sample_pdf ∅) sample_text =
    AppNew.student_prompt (new_case_name (upload "file" "a.pdf" sample_pdf ∅))
      sample_text.
Proof.
  pose proof (role_selects_template (str "Unnamed Case") sample_text)
    as (_ & _ & _ & Hother & Hdefault & _).
  split.
  - apply Hother. vm_compute. discriminate.
  - apply (Hdefault (upload "file" "a.pdf" sample_pdf ∅)). reflexivity.
Defined.

(** C3 as stated fails: the service rejects the API key and app_new.py
    answers 500. *)
Lemma authentication_failure_not_401 :
  (forall r, exists e, rejecting_key r = inl e /\
                       exn_class_of e = AuthenticationError) /\
  AppNew.generate_irac 0 (upload "file" "a.pdf" sample_pdf ∅) rejecting_key
    initial_world =
    (Return (error_response "Error generating analysis. Please try again later." 500),
     logged (ChatCompletion
               (AppNew.chat_request
                  (AppNew.student_prompt (str "Unnamed Case") sample_text)))
       (logged (PdfRead (upload_file "a.pdf" sample_pdf)) initial_world)).
Proof.
  split; [intros r; eexists; split; reflexivity|].
  vm_compute. reflexivity.
Qed.

(** C3 as amended, on the sample upload. *)
Lemma completion_failure_is_answered_500_witness :
  AppNew.generate_irac 0 (upload "file" "a.pdf" sample_pdf ∅) rejecting_key
    initial_world =
    (Return (error_response "Error generating analysis. Please try again later." 500),
     logged (ChatCompletion
               (AppNew.chat_request
                  (AppNew.student_prompt (str "Unnamed Case") sample_text)))
       (logged (PdfRead (upload_file "a.pdf" sample_pdf)) initial_world)) /\
  body (error_response "Error generating analysis. Please try again later." 500)
    !! "analysis" = None /\
  body (error_response "Error generating analysis. Please try again later." 500)
    !! "summary" = None.
Proof.
  assert (Hrun :
    AppNew.generate_irac 0 (upload "file" "a.pdf" sample_pdf ∅) rejecting_key
      initial_world =
    (Return (error_response "Error generating analysis. Please try again later." 500),
     logged (ChatCompletion
               (AppNew.chat_request
                  (AppNew.student_prompt (str "Unnamed Case") sample_text)))
       (logged (PdfRead (upload_file "a.pdf" sample_pdf)) initial_world)))
    by (vm_compute; reflexivity).
  split; [exact Hrun|].
  apply (completion_failure_is_answered_500 _ _ _ _ _ _ _ _
           {| exn_class_of := AuthenticationError;
              exn_text := str "Incorrect API key provided" |}
           Hrun eq_refl eq_refl).
Defined.

(** The clause of app.py that maps an authentication failure to 401 (lines
    323-326) stands in the lines after the [try] statement of its handler;
    run on its own it gives 401. *)
Example unreachable_clause_gives_401 :
  (App.Tail.completion (str "sk-test") sample_text rejecting_key initial_world).1 =
  Return (error_response
            "Authentication failed with OpenAI. Please check your API key." 401).
Proof. vm_compute. reflexivity. Qed.

(** * Further properties *)

(** ** File names *)

Section FileNames.

Lemma contains_char_In (c : char) (s : pystr) :
  contains_char c s = true <-> In c s.
Proof.
  unfold contains_char. rewrite existsb_exists. split.
  - intros (x & Hx & ->%N.eqb_eq). exact Hx.
  - intros H. exists c. split; [exact H|apply N.eqb_refl].
Qed.

Lemma rpartition_None (sep : char) (s : pystr) :
  rpartition sep s = None <-> ~ In sep s.
Proof.
  induction s as [|c s IH]; cbn [rpartition In]; [tauto|].
  destruct (rpartition sep s) as [[b a]|].
  - split; [discriminate|]. intros H. exfalso.
    assert (Hn : ~ In sep s) by tauto. apply IH in Hn. discriminate.
  - destruct (N.eqb_spec c sep) as [->|Hne].
    + split; [discriminate|]. tauto.
    + split; [|reflexivity]. intros _ [H|H]; [congruence|].
      revert H. apply IH. reflexivity.
Qed.

Lemma rpartition_app_sep (sep : char) (before after : pystr) :
  ~ In sep after ->
  rpartition sep (before ++ sep :: after) = Some (before, after).
Proof.
  intros Ha. induction before as [|c before IH]; cbn [app rpartition].
  - rewrite (proj2 (rpartition_None sep after) Ha), N.eqb_refl. reflexivity.
  - rewrite IH. reflexivity.
Qed.

Lemma rpartition_Some_inv (sep : char) (s before after : pystr) :
  rpartition sep s = Some (before, after) ->
  s = before ++ sep :: after /\ ~ In sep after.
Proof.
  revert before after. induction s as [|c s IH]; intros before after;
    cbn [rpartition]; [discriminate|].
  destruct (rpartition sep s) as [[b a]|] eqn:E.
  - intros [= <- <-]. destruct (IH _ _ eq_refl) as [-> Ha].
    split; [reflexivity|exact Ha].
  - apply rpartition_None in E. destruct (N.eqb_spec c sep) as [->|Hne].
    + intros [= <- <-]. split; [reflexivity|exact E].
    + discriminate.
Qed.

(** [rpartition] splits at the last separator: what follows holds none. *)
Lemma rpartition_Some (sep : char) (s before after : pystr) :
  rpartition sep s = Some (before, after) <->
  s = before ++ sep :: after /\ ~ In sep after.
Proof.
  split; [apply rpartition_Some_inv|].
  intros [-> Ha]. exact (rpartition_app_sep _ _ _ Ha).
Qed.

Lemma allowed_file_iff (name : pystr) :
  allowed_file name = true <->
  exists stem ext,
    name = stem ++ 46%N :: ext /\ ~ In 46%N ext /\ lower ext = str "pdf".
Proof.
  unfold allowed_file, rsplit1. split.
  - intros [_ H]%andb_true_iff.
    destruct (rpartition 46%N name) as [[stem ext]|] eqn:E; [|discriminate].
    cbn in H. apply bool_decide_eq_true in H.
    apply rpartition_Some in E as [-> Hext].
    exists stem, ext. repeat split; [exact Hext|].
    unfold ALLOWED_EXTENSIONS in H. apply list_elem_of_singleton in H. exact H.
  - intros (stem & ext & -> & Hext & Hlow).
    assert (E : rpartition 46%N (stem ++ 46%N :: ext) = Some (stem, ext))
      by exact (rpartition_app_sep _ _ _ Hext).
    rewrite E.
    apply andb_true_iff. split.
    + apply contains_char_In, in_or_app. right. left. reflexivity.
    + cbn [lookup list_lookup]. apply bool_decide_eq_true.
      rewrite Hlow. unfold ALLOWED_EXTENSIONS. apply list_elem_of_singleton. reflexivity.
Qed.

Lemma startswith_app (p t : pystr) : startswith p (p ++ t) = true.
Proof.
  induction p as [|a p IH]; [reflexivity|].
  cbn [startswith app]. rewrite N.eqb_refl. exact IH.
Qed.

Lemma startswith_inv (p s : pystr) :
  startswith p s = true -> exists t, s = p ++ t.
Proof.
  revert s. induction p as [|a p IH]; intros s; [eauto|].
  destruct s as [|b s]; [discriminate|]. cbn [startswith].
  intros [->%N.eqb_eq H]%andb_true_iff. destruct (IH _ H) as [t ->]. eauto.
Qed.

Lemma endswith_iff (s suffix : pystr) :
  endswith s suffix = true <-> exists stem, s = stem ++ suffix.
Proof.
  unfold endswith. split.
  - intros [t Ht]%startswith_inv. exists (rev t).
    rewrite <- (rev_involutive s), Ht, rev_app_distr, rev_involutive. reflexivity.
  - intros [stem ->]. rewrite rev_app_distr. apply startswith_app.
Qed.

Lemma lower_char_dot (c : char) : lower_char c = 46%N -> c = 46%N.
Proof.
  unfold lower_char. destruct ((65 <=? c) && (c <=? 90))%N eqn:E; [|trivial].
  apply andb_true_iff in E as [H1%N.leb_le H2%N.leb_le]. lia.
Qed.

End FileNames.

(** X1. [allowed_file] accepts exactly the names whose part after the last
    dot is [pdf] in any mix of upper and lower case: a name without a dot, a
    name that ends with a dot and the empty name are refused, and the bare
    name [.pdf] is accepted. *)
Theorem allowed_file_accepts_pdf_extension :
  forall name : pystr,
    (allowed_file name = true <->
     exists stem ext,
       name = stem ++ 46%N :: ext /\ ~ In 46%N ext /\ lower ext = str "pdf") /\
    (~ In 46%N name -> allowed_file name = false) /\
    allowed_file (name ++ [46%N]) = false /\
    allowed_file [] = false /\
    allowed_file (str ".pdf") = true.
Proof.
  intros name. split; [apply allowed_file_iff|]. split; [|split].
  - intros Hdot. apply not_true_is_false. intros H.
    apply allowed_file_iff in H as (stem & ext & -> & _). apply Hdot.
    apply in_or_app. right. left. reflexivity.
  - apply not_true_is_false. intros H.
    apply allowed_file_iff in H as (stem & ext & Hname & Hext & Hlow).
    assert (E : rpartition 46%N (name ++ [46%N]) = Some (name, [])).
    { apply rpartition_Some. split; [reflexivity|]. intros []. }
    pose proof (proj2 (rpartition_Some 46%N (name ++ [46%N]) stem ext)
                  (conj Hname Hext)) as E'.
    rewrite E in E'. injection E' as _ <-. discriminate Hlow.
  - split; reflexivity.
Qed.

(** X2. The two upload checks accept the same file names: app_new.py's
    [allowed_file] holds exactly when app.py's test, that the lowered name
    ends with [.pdf], holds. *)
Theorem allowed_file_agrees_with_endswith :
  forall name : pystr,
    allowed_file name = endswith (lower name) (str ".pdf").
Proof.
  intros name. apply eq_true_iff_eq. rewrite allowed_file_iff, endswith_iff. split.
  - intros (stem & ext & -> & _ & Hlow). exists (lower stem).
    unfold lower in *. rewrite map_app. apply f_equal. cbn [map].
    change (str ".pdf") with (46%N :: str "pdf"). apply f_equal. exact Hlow.
  - intros (pre & Hpre). unfold lower in Hpre.
    apply map_eq_app in Hpre as (stem & tail & -> & _ & Htail).
    change (str ".pdf") with [46; 112; 100; 102]%N in Htail.
    destruct tail as [|c0 [|c1 [|c2 [|c3 [|]]]]]; try discriminate Htail.
    injection Htail as H0 H1 H2 H3.
    apply lower_char_dot in H0 as ->.
    exists stem, [c1; c2; c3]. split; [reflexivity|]. split.
    + intros [H|[H|[H|[]]]]; subst; discriminate.
    + cbn [lower map]. rewrite H1, H2, H3. reflexivity.
Qed.

(** ** The sanitizer as a filter *)

Section SanitizerFilter.

Lemma re_sub_class_delete_filter (cls : char -> bool) (s : list char) :
  re_sub_class cls [] s = filter (fun c => cls c = false) s.
Proof.
  induction s as [|c s IH]; [reflexivity|].
  unfold re_sub_class in *. cbn [flat_map]. rewrite filter_cons.
  destruct (cls c) eqn:E.
  - rewrite decide_False by discriminate. exact IH.
  - rewrite decide_True by reflexivity. cbn [app]. rewrite IH. reflexivity.
Qed.

Lemma sanitize_input_filter (t : list char) :
  sanitize_input (Some t) = filter (fun c => not_printable c = false) t.
Proof. rewrite sanitize_input_sub. apply re_sub_class_delete_filter. Qed.

End SanitizerFilter.

(** X3. [sanitize_input] only deletes: its result is the input with the
    characters outside 0x20-0x7E and newline left out, in the same order.
    So it distributes over concatenation, keeps exactly the printable
    characters of the input, is never longer than the input, and returns
    the input unchanged exactly when the input is printable. *)
Theorem sanitize_input_deletes_only_unprintable :
  forall a b t : pystr,
    sanitize_input (Some (a ++ b)) =
      sanitize_input (Some a) ++ sanitize_input (Some b) /\
    sublist (sanitize_input (Some t)) t /\
    (forall c, In c (sanitize_input (Some t)) <-> In c t /\ printable_or_newline c) /\
    (length (sanitize_input (Some t)) <= length t)%nat /\
    (sanitize_input (Some t) = t <-> Forall printable_or_newline t).
Proof.
  intros a b t. rewrite !sanitize_input_filter.
  split; [apply filter_app|]. split; [apply sublist_filter|].
  split; [|split; [apply length_filter|]].
  - intros c. rewrite <- !list_elem_of_In, list_elem_of_filter, not_printable_false.
    tauto.
  - split.
    + intros H. rewrite <- H. apply Forall_forall. intros c Hc.
      apply list_elem_of_filter in Hc as [Hc _]. apply not_printable_false. exact Hc.
    + intros H. rewrite <- re_sub_class_delete_filter.
      apply re_sub_class_delete_fixed. eapply Forall_impl; [exact H|].
      intros c. apply not_printable_false.
Qed.

(** ** The cache key *)

Section CacheKey.

Lemma hexdigit_hex (n : N) : (n < 16)%N -> hex_char (hexdigit n).
Proof.
  unfold hexdigit, hex_char. intros H.
  destruct (N.ltb_spec n 10); lia.
Qed.

Lemma le_bytes_bytes (n : nat) (x : Z) :
  Forall (fun b => 0 <= b < 256) (MD5.le_bytes n x).
Proof.
  unfold MD5.le_bytes. apply Forall_map, Forall_forall. intros i _.
  change 255 with (Z.ones 8). rewrite Z.land_ones by lia.
  apply Z.mod_pos_bound. reflexivity.
Qed.

Lemma le_bytes_length (n : nat) (x : Z) : length (MD5.le_bytes n x) = n.
Proof. unfold MD5.le_bytes. rewrite length_map. apply length_seq. Qed.

Lemma digest_bytes (msg : list Z) :
  length (MD5.digest msg) = 16%nat /\
  Forall (fun b => 0 <= b < 256) (MD5.digest msg).
Proof.
  unfold MD5.digest. cbv zeta. split.
  - rewrite !length_app, !le_bytes_length. reflexivity.
  - rewrite !Forall_app. repeat split; apply le_bytes_bytes.
Qed.

Lemma hexdigest_flat_map (f : Z -> pystr) (l : list Z) (n : nat) :
  Forall (fun b => length (f b) = n) l ->
  length (flat_map f l) = (length l * n)%nat.
Proof.
  induction 1 as [|b l Hb _ IH]; [reflexivity|].
  cbn [flat_map length]. rewrite length_app, Hb, IH. lia.
Qed.

Lemma hexdigest_hex (msg : list Z) :
  length (MD5.hexdigest msg) = 32%nat /\ Forall hex_char (MD5.hexdigest msg).
Proof.
  destruct (digest_bytes msg) as [Hlen Hbytes]. unfold MD5.hexdigest. split.
  - rewrite (hexdigest_flat_map _ _ 2), Hlen; [reflexivity|].
    apply Forall_forall. reflexivity.
  - apply Forall_flat_map. eapply Forall_impl; [exact Hbytes|].
    intros b Hb. cbv beta in Hb |- *.
    constructor; [|constructor; [|constructor]]; apply hexdigit_hex.
    + assert (0 <= Z.shiftr b 4 < 16).
      { rewrite Z.shiftr_div_pow2 by lia. change (2 ^ 4) with 16.
        split; [apply Z.div_pos; lia|apply Z.div_lt_upper_bound; lia]. }
      lia.
    + assert (0 <= Z.land b 15 < 16).
      { change 15 with (Z.ones 4). rewrite Z.land_ones by lia.
        apply Z.mod_pos_bound. reflexivity. }
      lia.
Qed.

Lemma printable_check (s : pystr) :
  forallb (fun c => (32 <=? c) && (c <=? 126))%N s = true -> Forall ascii_printable s.
Proof.
  rewrite forallb_forall. intros H. apply Forall_forall. intros c Hc.
  apply list_elem_of_In, H in Hc. apply andb_true_iff in Hc as [?%N.leb_le ?%N.leb_le].
  split; assumption.
Qed.

Lemma hexdigit_printable (n : N) : ascii_printable (hexdigit (n mod 16)).
Proof.
  assert (H : hex_char (hexdigit (n mod 16)))
    by (apply hexdigit_hex, N.mod_upper_bound; discriminate).
  unfold hex_char in H. unfold ascii_printable. lia.
Qed.

Lemma hex4_printable (n : N) : Forall ascii_printable (hex4 n).
Proof.
  unfold hex4. repeat (constructor; [apply hexdigit_printable|]). constructor.
Qed.

Lemma escape_char_printable (c : char) : Forall ascii_printable (Json.escape_char c).
Proof.
  unfold Json.escape_char.
  repeat match goal with
         | |- context [if ?b then _ else _] => destruct b eqn:?
         end;
    cbv zeta; rewrite ?Forall_app; repeat split;
    try apply hex4_printable; try (apply printable_check; reflexivity).
  apply printable_check. cbn [forallb]. rewrite Heqb6. reflexivity.
Qed.

Lemma join_Forall (P : char -> Prop) (sep : pystr) (parts : list pystr) :
  Forall P sep -> Forall (Forall P) parts -> Forall P (join sep parts).
Proof.
  intros Hsep. induction 1 as [|p rest Hp Hrest IH]; [constructor|].
  destruct rest as [|q rest]; [exact Hp|].
  change (join sep (p :: q :: rest)) with (p ++ sep ++ join sep (q :: rest)).
  rewrite !Forall_app. auto.
Qed.

Lemma dumps_printable (args : list pystr) : Forall ascii_printable (Json.dumps args).
Proof.
  unfold Json.dumps. rewrite !Forall_app.
  split; [apply printable_check; reflexivity|].
  split; [|apply printable_check; reflexivity].
  apply join_Forall; [apply printable_check; reflexivity|].
  apply Forall_map, Forall_forall. intros s _.
  unfold Json.encode_basestring_ascii. rewrite !Forall_app.
  split; [apply printable_check; reflexivity|].
  split; [|apply printable_check; reflexivity].
  apply Forall_flat_map, Forall_forall. intros c _. apply escape_char_printable.
Qed.

Lemma encode_ascii (s : pystr) :
  Forall ascii_printable s -> encode s = map Z.of_N s.
Proof.
  induction 1 as [|c s Hc _ IH]; [reflexivity|].
  unfold encode in *. cbn [flat_map map]. rewrite IH.
  unfold encode_char. cbv zeta. unfold ascii_printable in Hc.
  destruct (Z.ltb_spec (Z.of_N c) 128); [reflexivity|lia].
Qed.

End CacheKey.

(** X4. Whatever strings it is given, and however many, [generate_cache_key]
    returns 32 characters, each a lowercase hexadecimal digit. *)
Theorem generate_cache_key_is_32_hex_digits :
  forall args : list pystr,
    length (generate_cache_key args) = 32%nat /\
    Forall hex_char (generate_cache_key args).
Proof. intros args. apply hexdigest_hex. Qed.

(** X5. The JSON text that is hashed is printable ASCII whatever characters
    the arguments hold, so that [.encode()] yields one byte per character
    and the bytes hashed are the character codes of the JSON text. *)
Theorem cache_key_hashes_ascii_json :
  forall args : list pystr,
    Forall ascii_printable (Json.dumps args) /\
    encode (Json.dumps args) = map Z.of_N (Json.dumps args) /\
    generate_cache_key args = MD5.hexdigest (map Z.of_N (Json.dumps args)).
Proof.
  intros args. pose proof (dumps_printable args) as H.
  split; [exact H|]. split; [exact (encode_ascii _ H)|].
  unfold generate_cache_key. rewrite (encode_ascii _ H). reflexivity.
Qed.

(** ** The cache: round trip, capacity and eviction *)

Section CacheMoreFacts.
Context {V : Type}.
Implicit Types (c : TTLCache.t V) (l : list (pystr * TTLCache.link V)).
Implicit Types (k : pystr) (x : TTLCache.link V).


Lemma find_None_keys k l : TTLCache.find k l = None <-> k ∉ map fst l.
Proof.
  induction l as [|[k' x] l IH]; cbn [TTLCache.find map fst].
  - split; [intros _ H; inversion H|reflexivity].
  - rewrite not_elem_of_cons. destruct (decide (k' = k)) as [->|Hne].
    + split; [discriminate|]. intros [H _]. contradiction.
    + rewrite IH. split; [intros H; split; [congruence|exact H]|tauto].
Qed.

Lemma remove_length k l : (length (TTLCache.remove k l) <= length l)%nat.
Proof. apply length_filter. Qed.

Lemma remove_length_lt k x l :
  TTLCache.find k l = Some x -> (length (TTLCache.remove k l) < length l)%nat.
Proof.
  intros H. unfold TTLCache.remove.
  apply (length_filter_lt _ _ (k, x)); [exact (find_elem_of _ _ _ H)|].
  cbn [fst]. intros Hne. apply Hne. reflexivity.
Qed.

Lemma keys_filter_NoDup (P : pystr * TTLCache.link V -> Prop)
    `{!forall p, Decision (P p)} l :
  NoDup (map fst l) -> NoDup (map fst (filter P l)).
Proof.
  induction l as [|p l IH]; [trivial|].
  cbn [map]. rewrite NoDup_cons. intros [Hp Hl]. rewrite filter_cons.
  destruct (decide (P p)); [|exact (IH Hl)].
  cbn [map]. apply NoDup_cons. split; [|exact (IH Hl)].
  intros Hin. apply Hp. apply list_elem_of_fmap in Hin as (q & -> & Hq).
  apply list_elem_of_fmap. exists q. split; [reflexivity|].
  apply list_elem_of_filter in Hq as [_ Hq]. exact Hq.
Qed.

Lemma make_room_NoDup n l :
  NoDup (map fst l) -> NoDup (map fst (TTLCache.make_room n l)).
Proof.
  induction l as [|p l IH]; [trivial|].
  cbn [TTLCache.make_room]. destruct (bool_decide _); [|trivial].
  cbn [map]. rewrite NoDup_cons. intros [_ Hl]. exact (IH Hl).
Qed.

Lemma moved_NoDup k x l :
  NoDup (map fst l) -> NoDup (map fst (TTLCache.remove k l ++ [(k, x)])).
Proof.
  intros Hl. rewrite map_app. apply NoDup_app. split; [|split].
  - apply keys_filter_NoDup, Hl.
  - intros k0 H0 H1. cbn in H1. apply list_elem_of_singleton in H1 as ->.
    revert H0. apply find_None_keys, find_remove.
  - cbn. apply NoDup_singleton.
Qed.

(** A store keeps the keys distinct and the cache within its size. *)
Lemma setitem_inv now c k v c' :
  TTLCache.setitem now c k v = Some c' ->
  NoDup (map fst (TTLCache.links c)) ->
  (length (TTLCache.links c) <= TTLCache.maxsize c)%nat ->
  NoDup (map fst (TTLCache.links c')) /\
  (length (TTLCache.links c') <= TTLCache.maxsize c)%nat.
Proof.
  unfold TTLCache.setitem. case_bool_decide as Hmax; [discriminate|].
  intros [= <-] Hl Hlen. cbn [TTLCache.links TTLCache.with_links].
  assert (Hexp : NoDup (map fst (TTLCache.expire now (TTLCache.links c))))
    by (apply keys_filter_NoDup, Hl).
  assert (Hexplen : (length (TTLCache.expire now (TTLCache.links c))
                     <= TTLCache.maxsize c)%nat).
  { etransitivity; [apply length_filter|exact Hlen]. }
  destruct (TTLCache.find k (TTLCache.expire now (TTLCache.links c))) as [x|] eqn:E.
  - split; [apply moved_NoDup, Hexp|].
    rewrite length_app. cbn [length]. pose proof (remove_length_lt _ _ _ E). lia.
  - split; [apply moved_NoDup, make_room_NoDup, Hexp|].
    rewrite length_app. cbn [length].
    pose proof (make_room_length (TTLCache.maxsize c)
                  (TTLCache.expire now (TTLCache.links c))).
    pose proof (remove_length k (TTLCache.make_room (TTLCache.maxsize c)
                                   (TTLCache.expire now (TTLCache.links c)))).
    lia.
Qed.






End CacheMoreFacts.

(** ** Runs and paths *)

Section PathFacts.

Lemma new_path_deterministic now request openai w r1 w1 r2 w2 :
  new_path now request openai w r1 w1 ->
  new_path now request openai w r2 w2 ->
  r1 = r2 /\ w1 = w2.
Proof.
  destruct 1; destruct 1; path_absurd; split; congruence.
Qed.

(** A path is the run. *)
Lemma new_path_run now request openai w r w' :
  new_path now request openai w r w' ->
  AppNew.generate_irac now request openai w = (Return r, w').
Proof.
  intros Hpath. destruct (new_run now request openai w) as (r0 & w0 & Hrun & Hpath0).
  destruct (new_path_deterministic _ _ _ _ _ _ _ _ Hpath Hpath0) as [-> ->].
  exact Hrun.
Qed.

End PathFacts.

(** ** More invariants of the reachable worlds *)

Section ReachableMore.

Lemma touched_find (w : World) (key : pystr) (x : TTLCache.link loc) :
  TTLCache.find key (TTLCache.links (response_cache (touched w key x))) = Some x.
Proof.
  cbn [touched response_cache TTLCache.links TTLCache.with_links].
  rewrite find_app, find_remove. apply find_singleton.
Qed.

Lemma new_path_bounds now request openai w r w' :
  new_path now request openai w r w' ->
  NoDup (cache_keys w) ->
  (length (TTLCache.links (response_cache w)) <= TTLCache.maxsize (response_cache w))%nat ->
  NoDup (cache_keys w') /\
  (length (TTLCache.links (response_cache w')) <= TTLCache.maxsize (response_cache w))%nat.
Proof.
  unfold cache_keys.
  destruct 1 as [| | | |file x d Hv Hfind|file x Hv Hfind| | | |
                 | |file text response choice rest cache' Hv Hc Ht Hb Hs Hch Hset];
    intros Hnd Hlen;
    cbn [heap response_cache logged touched TTLCache.links TTLCache.with_links];
    auto.
  - split; [apply moved_NoDup, Hnd|]. rewrite length_app. cbn [length].
    pose proof (remove_length_lt _ _ _ Hfind). lia.
  - split; [apply moved_NoDup, Hnd|]. rewrite length_app. cbn [length].
    pose proof (remove_length_lt _ _ _ Hfind). lia.
  - exact (setitem_inv _ _ _ _ _ Hset Hnd Hlen).
Qed.

Lemma reachable_bounds w :
  reachable w ->
  NoDup (cache_keys w) /\
  (length (TTLCache.links (response_cache w)) <= 100)%nat.
Proof.
  induction 1 as [|w now request openai Hreach [IHnd IHlen]].
  - split; [apply NoDup_nil_2|]. cbn. lia.
  - destruct (reachable_params _ Hreach) as [Hmax _].
    destruct (new_run now request openai w) as (r & w' & Hrun & Hpath).
    rewrite Hrun. cbn [snd]. rewrite <- Hmax in *.
    exact (new_path_bounds _ _ _ _ _ _ Hpath IHnd IHlen).
Qed.

Lemma new_path_heap now request openai w r w' :
  new_path now request openai w r w' ->
  Forall result_object (heap w) -> Forall result_object (heap w').
Proof.
  destruct 1; intros Hh; cbn [heap logged touched]; auto;
    (apply Forall_app; split; [exact Hh|]);
    repeat constructor; eexists _, _; reflexivity.
Qed.

Lemma reachable_heap w : reachable w -> Forall result_object (heap w).
Proof.
  induction 1 as [|w now request openai _ IH]; [constructor|].
  destruct (new_run now request openai w) as (r & w' & Hrun & Hpath).
  rewrite Hrun. cbn [snd]. exact (new_path_heap _ _ _ _ _ _ Hpath IH).
Qed.

(** In a reachable world a run ends on one of ten paths: the cache refers
    to no missing object and it always has room. *)
Lemma reachable_no_dangling w key x :
  reachable w ->
  TTLCache.find key (TTLCache.links (response_cache w)) = Some x ->
  exists d, heap w !! TTLCache.value x = Some d /\ result_object d.
Proof.
  intros Hreach Hfind.
  destruct (reachable_cached_ok _ Hreach _ (find_elem_of _ _ _ Hfind)) as (d & Hd & _).
  exists d. split; [exact Hd|].
  pose proof (reachable_heap _ Hreach) as Hall.
  rewrite Forall_forall in Hall. apply Hall. exact (list_elem_of_lookup_2 _ _ _ Hd).
Qed.

Lemma reachable_stores w now key v :
  reachable w -> is_Some (TTLCache.setitem now (response_cache w) key v).
Proof.
  intros Hreach. apply setitem_is_Some.
  destruct (reachable_params _ Hreach) as [-> _]. lia.
Qed.

(** A request whose key has an expired entry is processed afresh. *)
Lemma new_expired_rereads now request openai w file x :
  new_valid_upload request file ->
  TTLCache.find (new_cache_key request file) (TTLCache.links (response_cache w)) = Some x ->
  TTLCache.expires x <= now ->
  exists l, calls (AppNew.generate_irac now request openai w).2 =
            l ++ PdfRead file :: calls w.
Proof.
  intros Hv Hfind Hexp.
  destruct (new_run now request openai w) as (r & w' & Hrun & Hpath).
  rewrite Hrun. cbn [snd].
  destruct Hpath; path_absurd; cbn [calls logged];
    first [ exists []; reflexivity | eexists [_]; reflexivity ].
Qed.

End ReachableMore.

(** X6. Each request to app_new.py reads the uploaded document at most
    once and calls the completion service at most once, and calls the
    service only after it has read the document: the calls of a request are
    none, the PDF read alone, or the PDF read followed by one completion
    call on the document in the field [file]. *)
Theorem new_handler_calls_at_most_once :
  forall now request openai w,
    exists r w',
      AppNew.generate_irac now request openai w = (Return r, w') /\
      (calls w' = calls w \/
       exists file,
         files request !! "file" = Some file /\
         (calls w' = PdfRead file :: calls w \/
          exists c, calls w' = ChatCompletion c :: PdfRead file :: calls w)).
Proof.
  intros now request openai w.
  destruct (new_run now request openai w) as (r & w' & Hrun & Hpath).
  exists r, w'. split; [exact Hrun|].
  destruct Hpath;
    repeat match goal with
           | H : new_valid_upload _ _ |- _ => destruct H as (? & ? & ?)
           end;
    cbn [calls logged touched]; eauto 8.
Qed.

(** X8. In every world the server reaches, the cache holds exactly the
    successes. A response with status 200 is, after the request, the
    object of the unexpired cache entry of the request's key; a response
    with any other status leaves the cache and the objects as they were, so
    that a failure is never cached. *)
Theorem cache_holds_exactly_successes :
  forall w now request openai r w',
    reachable w ->
    AppNew.generate_irac now request openai w = (Return r, w') ->
    (status r = 200 ->
     exists file x,
       files request !! "file" = Some file /\
       TTLCache.find (new_cache_key request file)
         (TTLCache.links (response_cache w')) = Some x /\
       now < TTLCache.expires x /\
       heap w' !! TTLCache.value x = Some (body r)) /\
    (status r <> 200 ->
     heap w' = heap w /\ response_cache w' = response_cache w).
Proof.
  intros w now request openai r w' Hreach Hrun.
  destruct (reachable_params _ Hreach) as [_ Httl].
  apply new_run_inv in Hrun.
  destruct Hrun as [| | | |file x d Hv Hfind Hlive Hd|file x Hv Hfind Hlive Hd| | | |
                    |file text response choice rest Hv Hc Ht Hb Hs Hch Hset
                    |file text response choice rest cache' Hv Hc Ht Hb Hs Hch Hset];
    cbn [status error_response body];
    try (split; [discriminate|intros _; split; reflexivity]).
  - split; [intros _|contradiction]. exists file, x.
    split; [apply Hv|]. split; [apply touched_find|]. split; assumption.
  - destruct (reachable_no_dangling _ _ _ Hreach Hfind) as (d & Hd' & _). congruence.
  - destruct (reachable_stores w now (new_cache_key request file) (length (heap w)) Hreach)
      as [c Hc']. congruence.
  - split; [intros _|contradiction].
    exists file, {| TTLCache.value := length (heap w); TTLCache.expires := now + 300 |}.
    split; [apply Hv|]. cbn [response_cache heap TTLCache.value TTLCache.expires].
    split; [rewrite <- Httl; exact (setitem_find _ _ _ _ _ Hset)|].
    split; [lia|apply lookup_fresh].
Qed.

(** X9. The cache never outgrows its size: in every world the server
    reaches it holds at most 100 entries, no key twice, and every entry
    refers to an existing object. *)
Theorem cache_never_exceeds_100_entries :
  forall w,
    reachable w ->
    (length (TTLCache.links (response_cache w)) <= 100)%nat /\
    NoDup (cache_keys w) /\
    (forall key x,
       TTLCache.find key (TTLCache.links (response_cache w)) = Some x ->
       is_Some (heap w !! TTLCache.value x)).
Proof.
  intros w Hreach. destruct (reachable_bounds _ Hreach) as [Hnd Hlen].
  split; [exact Hlen|]. split; [exact Hnd|].
  intros key x Hfind.
  destruct (reachable_no_dangling _ _ _ Hreach Hfind) as (d & Hd & _). eauto.
Qed.

(** X10. A cached response lives 300 seconds from the moment it was
    stored, and a hit does not renew it. When the request that was answered
    by the completion service at [t1] is repeated at [t3 >= t1 + 300], the
    document is read again; this is so also when the request was served
    from the cache at some [t2] in between. *)
Theorem cached_response_expires_after_ttl :
  forall t1 t2 t3 request openai1 openai2 openai3 w r1 w1,
    reachable w ->
    AppNew.generate_irac t1 request openai1 w = (Return r1, w1) ->
    status r1 = 200 ->
    calls w1 <> calls w ->
    t1 + 300 <= t3 ->
    exists file,
      files request !! "file" = Some file /\
      (exists l, calls (AppNew.generate_irac t3 request openai3 w1).2 =
                 l ++ PdfRead file :: calls w1) /\
      (t2 < t1 + 300 ->
       exists w2,
         AppNew.generate_irac t2 request openai2 w1 = (Return r1, w2) /\
         calls w2 = calls w1 /\
         exists l, calls (AppNew.generate_irac t3 request openai3 w2).2 =
                   l ++ PdfRead file :: calls w1).
Proof.
  intros t1 t2 t3 request openai1 openai2 openai3 w r1 w1 Hreach Hrun Hstatus Hcalled Hexp.
  destruct (reachable_params _ Hreach) as [_ Httl].
  apply new_run_inv in Hrun.
  destruct Hrun as [| | | |file x d| | | | |
                    | |file text response choice rest cache' Hv Hc Ht Hb Hs Hch Hset];
    cbn [status error_response touched calls] in *; try discriminate;
    try contradiction.
  pose proof (setitem_find _ _ _ _ _ Hset) as Hfind. rewrite Httl in Hfind.
  set (w1 := {| heap := heap w ++ [AppNew.result_of response choice];
                response_cache := cache';
                calls := ChatCompletion (AppNew.chat_request (new_prompt request text))
                         :: PdfRead file :: calls w |}) in *.
  exists file. split; [apply Hv|]. split.
  - eapply new_expired_rereads; [exact Hv|exact Hfind|]. cbn [TTLCache.expires]. lia.
  - intros Hlt. eexists. split; [|split].
    + eapply new_hit; [exact Hv|exact Hfind| |].
      * cbn [TTLCache.expires]. exact Hlt.
      * cbn [TTLCache.value heap w1]. apply lookup_fresh.
    + reflexivity.
    + change (calls w1) with
        (calls (touched w1 (new_cache_key request file)
                  {| TTLCache.value := length (heap w); TTLCache.expires := t1 + 300 |})).
      eapply new_expired_rereads; [exact Hv|apply touched_find|].
      cbn [TTLCache.expires]. lia.
Qed.

(** X11. The document is no part of the cache key. After a request was
    answered by the completion service, any valid upload with the same file
    name, role and sanitized case name gets, within the 300 seconds, the
    response of the first request, whatever document it carries, and its
    document is not read. *)
Theorem same_name_served_regardless_of_document :
  forall t1 t2 request1 request2 openai1 openai2 w r1 w1 file1 file2,
    reachable w ->
    AppNew.generate_irac t1 request1 openai1 w = (Return r1, w1) ->
    status r1 = 200 ->
    calls w1 <> calls w ->
    files request1 !! "file" = Some file1 ->
    new_valid_upload request2 file2 ->
    filename file2 = filename file1 ->
    new_role request2 = new_role request1 ->
    new_case_name request2 = new_case_name request1 ->
    t2 < t1 + 300 ->
    exists w2,
      AppNew.generate_irac t2 request2 openai2 w1 = (Return r1, w2) /\
      calls w2 = calls w1.
Proof.
  intros t1 t2 request1 request2 openai1 openai2 w r1 w1 file1 file2
    Hreach Hrun Hstatus Hcalled Hfile Hv2 Hname Hrole Hcase Hlt.
  destruct (reachable_params _ Hreach) as [_ Httl].
  assert (Hkey : new_cache_key request2 file2 = new_cache_key request1 file1).
  { unfold new_cache_key. rewrite Hname, Hrole, Hcase. reflexivity. }
  apply new_run_inv in Hrun.
  destruct Hrun as [| | | |file x d| | | | |
                    | |file text response choice rest cache' Hv Hc Ht Hb Hs Hch Hset];
    cbn [status error_response touched calls] in *; try discriminate;
    try contradiction.
  assert (file = file1) as -> by (destruct Hv as (_ & Hf & _); congruence).
  eexists. split.
  - eapply new_hit; [exact Hv2| | |].
    + rewrite Hkey. cbn [response_cache]. exact (setitem_find _ _ _ _ _ Hset).
    + cbn [TTLCache.expires]. rewrite Httl. exact Hlt.
    + cbn [TTLCache.value heap]. apply lookup_fresh.
  - reflexivity.
Qed.

(** X12. In every world the server reaches, a response of app_new.py with
    status 200 has exactly the four fields [analysis], [model], [usage] and
    [cached]: it is a dict the handler built from a completion, with
    [analysis] a string or null, and it has no [error] field. *)
Theorem success_body_has_four_fields :
  forall w now request openai r w',
    reachable w ->
    AppNew.generate_irac now request openai w = (Return r, w') ->
    status r = 200 ->
    (exists analysis model usage,
       body r = {[ "analysis" := json_of analysis; "model" := JStr model;
                   "usage" := JObject usage; "cached" := JBool false ]}) /\
    dom (body r) = ({[ "analysis"; "model"; "usage"; "cached" ]} : gset string) /\
    body r !! "error" = None.
Proof.
  intros w now request openai r w' Hreach Hrun Hstatus.
  assert (Hres : result_object (body r)).
  { apply new_run_inv in Hrun.
    destruct Hrun as [| | | |file x d Hv Hfind Hlive Hd| | | | |
                      | |file text response choice rest cache'];
      cbn [status error_response body] in *; try discriminate.
    - destruct (reachable_no_dangling _ _ _ Hreach Hfind) as (d' & Hd' & Hres).
      congruence.
    - eexists _, _. reflexivity. }
  destruct Hres as (response & choice & ->). unfold AppNew.result_of.
  split; [eauto|]. split.
  - unfold dict. rewrite !dom_insert_L, dom_singleton_L. set_solver.
  - reflexivity.
Qed.


(** X14. A completion without content. When the first choice of the
    service's answer has no content, app_new.py answers 200 with
    [analysis] null and stores that response in the cache. *)
Theorem completion_without_content :
  forall now request openai w file text response rest,
    reachable w ->
    new_valid_upload request file ->
    TTLCache.contains now (response_cache w) (new_cache_key request file) = false ->
    new_text (stream file) = Some text ->
    strip text <> [] ->
    openai (AppNew.chat_request (new_prompt request text)) = inr response ->
    choices response = {| content := None |} :: rest ->
    exists r w',
      AppNew.generate_irac now request openai w = (Return r, w') /\
      status r = 200 /\
      body r !! "analysis" = Some JNull /\
      TTLCache.contains now (response_cache w') (new_cache_key request file) = true.
Proof.
  intros now request openai w file text response rest
    Hreach Hv Hc Ht Hb Hs Hch.
  destruct (reachable_params _ Hreach) as [_ Httl].
  destruct (reachable_stores w now (new_cache_key request file) (length (heap w)) Hreach)
    as [cache' Hset].
  do 2 eexists. split; [|split; [|split]].
  - apply new_path_run. eapply new_path_success; eassumption.
  - reflexivity.
  - reflexivity.
  - cbn [response_cache]. apply contains_true. eexists.
    split; [exact (setitem_find _ _ _ _ _ Hset)|].
    cbn [TTLCache.expires]. lia.
Qed.

(** X15. Of the form, app_new.py reads the fields [role] and [case_name]
    and nothing else: requests that agree on the body length, the files,
    the role and the case name after sanitizing are handled alike. *)
Theorem new_handler_reads_two_form_fields :
  forall now request1 request2 openai w,
    content_length request1 = content_length request2 ->
    files request1 = files request2 ->
    form request1 !! "role" = form request2 !! "role" ->
    new_case_name request1 = new_case_name request2 ->
    AppNew.generate_irac now request1 openai w =
    AppNew.generate_irac now request2 openai w.
Proof.
  intros now request1 request2 openai w Hlen Hfiles Hrole Hcase.
  unfold AppNew.generate_irac, request_files.
  fold (new_case_name request1) (new_case_name request2).
  unfold form_get. rewrite Hlen, Hfiles, Hrole, Hcase. reflexivity.
Qed.

(** ** The extractor *)

Section Extractors.

Lemma concat_isspace (parts : list pystr) :
  forallb isspace (concat parts) = forallb (forallb isspace) parts.
Proof.
  induction parts as [|p rest IH]; [reflexivity|].
  cbn [concat forallb]. rewrite forallb_app, IH. reflexivity.
Qed.

Lemma texts_of_pages (ps : list page) :
  match texts_of ps with
  | inl _ => existsb failing_page ps = true
  | inr ts => existsb failing_page ps = false /\
              forallb blank_page ps = forallb (forallb isspace) ts
  end.
Proof.
  induction ps as [|[t|e] ps IH]; cbn [texts_of existsb forallb failing_page blank_page orb].
  - split; reflexivity.
  - destruct (texts_of ps) as [e|ts]; [exact IH|].
    destruct IH as [IH1 IH2]. split; [exact IH1|].
    cbn [forallb]. rewrite IH2. reflexivity.
  - reflexivity.
Qed.

End Extractors.

(** X17. app_new.py's [extract_text_from_pdf] reads the document once and
    either returns a text or raises the [ValueError] of line 98. It raises
    exactly when the document does not parse or one of its pages fails;
    otherwise it returns a text, which is blank exactly when every page is
    empty or white space. *)
Theorem new_extractor_text_or_value_error :
  forall (file : FileStorage) (w : World),
    match stream file with
    | NotAPdf _ =>
        AppNew.extract_text_from_pdf file w =
          (Raise {| exn_class_of := ValueError;
                    exn_text := str "Failed to extract text from PDF" |},
           logged (PdfRead file) w)
    | Pdf pages =>
        if existsb failing_page pages
        then AppNew.extract_text_from_pdf file w =
               (Raise {| exn_class_of := ValueError;
                         exn_text := str "Failed to extract text from PDF" |},
                logged (PdfRead file) w)
        else exists text,
               AppNew.extract_text_from_pdf file w =
                 (Normal text, logged (PdfRead file) w) /\
               (strip text = [] <-> forallb blank_page pages = true)
    end.
Proof.
  intros file w. rewrite new_extract_spec.
  destruct (stream file) as [e|pages]; cbn [new_text]; [reflexivity|].
  pose proof (texts_of_pages pages) as H.
  destruct (texts_of pages) as [e|ts].
  - rewrite H. reflexivity.
  - destruct H as [-> ->]. eexists. split; [reflexivity|].
    rewrite strip_nil_iff, concat_isspace. reflexivity.
Qed.

(** ** Start-up configuration *)

Section Configuration.

Lemma split_nonempty (sep : char) (s : pystr) : split sep s <> [].
Proof.
  destruct s as [|c s]; cbn [split]; [discriminate|].
  destruct (c =? sep)%N; [discriminate|].
  destruct (split sep s); discriminate.
Qed.

Lemma join_cons (sep : pystr) (p q : pystr) (rest : list pystr) :
  join sep (p :: q :: rest) = p ++ sep ++ join sep (q :: rest).
Proof. reflexivity. Qed.

Lemma join_split (sep : char) (s : pystr) : join [sep] (split sep s) = s.
Proof.
  induction s as [|c s IH]; [reflexivity|].
  cbn [split]. pose proof (split_nonempty sep s) as Hne.
  destruct (N.eqb_spec c sep) as [->|Hc].
  - destruct (split sep s) as [|p rest]; [contradiction|].
    rewrite join_cons, IH. reflexivity.
  - destruct (split sep s) as [|p rest]; [contradiction|].
    destruct rest as [|q rest].
    + cbn [join] in *. rewrite IH. reflexivity.
    + change (join [sep] ((c :: p) :: q :: rest))
        with (c :: join [sep] (p :: q :: rest)).
      rewrite IH. reflexivity.
Qed.

Lemma split_no_sep (sep : char) (s : pystr) :
  Forall (fun piece => ~ In sep piece) (split sep s).
Proof.
  induction s as [|c s IH]; [repeat constructor; intros []|].
  cbn [split]. destruct (N.eqb_spec c sep) as [->|Hc].
  - constructor; [intros []|exact IH].
  - destruct (split sep s) as [|p rest]; [repeat constructor; intros [H|[]]; congruence|].
    apply Forall_cons in IH as [Hp Hrest]. constructor; [|exact Hrest].
    intros [H|H]; [congruence|exact (Hp H)].
Qed.

Lemma split_length (sep : char) (s : list char) :
  length (split sep s) = S (length (filter (fun c => c = sep) s)).
Proof.
  induction s as [|c s IH]; [reflexivity|].
  cbn [split]. rewrite filter_cons. destruct (N.eqb_spec c sep) as [->|Hc].
  - rewrite decide_True by reflexivity. cbn [length]. rewrite IH. reflexivity.
  - rewrite decide_False by exact Hc.
    pose proof (split_nonempty sep s) as Hne.
    destruct (split sep s) as [|p rest]; [contradiction|]. exact IH.
Qed.

End Configuration.

(** X19. The CORS origins are the value of [ALLOWED_ORIGINS] cut at its
    commas and nothing more: joining them with commas gives the value back,
    so no piece is trimmed or dropped; there is one origin more than there
    are commas, never none; no origin holds a comma. Without the variable
    the list is the single origin [*]; with the variable set to the empty
    string it is the single empty origin. *)
Theorem allowed_origins_splits_at_commas :
  forall env : gmap string pystr,
    join (str ",") (allowed_origins env) =
      default (str "*") (env !! "ALLOWED_ORIGINS") /\
    length (allowed_origins env) =
      S (length (filter (fun c => c = 44%N)
                   (default (str "*") (env !! "ALLOWED_ORIGINS")))) /\
    Forall (fun origin => ~ In 44%N origin) (allowed_origins env) /\
    (env !! "ALLOWED_ORIGINS" = None -> allowed_origins env = [str "*"]) /\
    (env !! "ALLOWED_ORIGINS" = Some ([] : pystr) -> allowed_origins env = [[]]).
Proof.
  intros env. unfold allowed_origins.
  split; [apply (join_split 44%N)|]. split; [apply split_length|].
  split; [apply split_no_sep|]. split; intros ->; reflexivity.
Qed.

(** X20. app_new.py starts only with an API key. The import stops with the
    [ValueError] of line 67 when [OPENAI_API_KEY] is unset or empty, and
    otherwise takes its value as the key. *)
Theorem api_key_required_at_startup :
  forall env : gmap string pystr,
    (forall key, new_api_key env = inr key <->
                 env !! "OPENAI_API_KEY" = Some key /\ key <> []) /\
    (forall e, new_api_key env = inl e ->
               (env !! "OPENAI_API_KEY" = None \/
                env !! "OPENAI_API_KEY" = Some ([] : pystr)) /\
               e = {| exn_class_of := ValueError;
                      exn_text := str "OPENAI_API_KEY environment variable is required" |}).
Proof.
  intros env. unfold new_api_key. cbv zeta.
  destruct (env !! "OPENAI_API_KEY") as [[|c key]|]; cbn [falsy default].
  - split.
    + intros key. split; [discriminate|]. intros [[= <-] H]. contradiction.
    + intros e [= <-]. auto.
  - split.
    + intros key'. split.
      * intros [= <-]. split; [reflexivity|discriminate].
      * intros [[= <-] _]. reflexivity.
    + intros e H. discriminate H.
  - split.
    + intros key. split; [discriminate|]. intros [H _]. discriminate H.
    + intros e [= <-]. auto.
Qed.

(** ** The JSON text determines the arguments *)

Section JsonInjective.

Lemma hexdigit_inj (a b : N) :
  (a < 16)%N -> (b < 16)%N -> hexdigit a = hexdigit b -> a = b.
Proof.
  unfold hexdigit. intros Ha Hb.
  destruct (N.ltb_spec a 10), (N.ltb_spec b 10); lia.
Qed.

Lemma hex4_inj (n m : N) :
  (n < 65536)%N -> (m < 65536)%N -> hex4 n = hex4 m -> n = m.
Proof.
  intros Hn Hm. unfold hex4. rewrite !N.shiftr_div_pow2.
  change (2 ^ 12)%N with 4096%N. change (2 ^ 8)%N with 256%N.
  change (2 ^ 4)%N with 16%N.
  intros [= H3 H2 H1 H0].
  apply hexdigit_inj in H3, H2, H1, H0;
    try (apply N.mod_upper_bound; discriminate).
  pose proof (N.div_mod n 16). pose proof (N.div_mod (n / 16) 16).
  pose proof (N.div_mod (n / 256) 16).
  pose proof (N.div_mod m 16). pose proof (N.div_mod (m / 16) 16).
  pose proof (N.div_mod (m / 256) 16).
  rewrite !N.Div0.div_div in *.
  change (16 * 16)%N with 256%N in *. change (256 * 16)%N with 4096%N in *.
  assert (n / 4096 < 16)%N by (apply N.Div0.div_lt_upper_bound; lia).
  assert (m / 4096 < 16)%N by (apply N.Div0.div_lt_upper_bound; lia).
  rewrite (N.mod_small (n / 4096)) in * by assumption.
  rewrite (N.mod_small (m / 4096)) in * by assumption.
  lia.
Qed.

Lemma lor_low_bits (a y : N) :
  (a mod 1024 = 0)%N -> (y < 1024)%N -> N.lor a y = (a + y)%N.
Proof.
  intros Ha Hy.
  assert (Hhigh : (N.lor a y / 1024 = a / 1024)%N).
  { change 1024%N with (2 ^ 10)%N. rewrite <- !N.shiftr_div_pow2, N.shiftr_lor.
    rewrite (N.shiftr_div_pow2 y). change (2 ^ 10)%N with 1024%N.
    rewrite (N.div_small y) by exact Hy. apply N.lor_0_r. }
  assert (Hlow : (N.lor a y mod 1024 = y)%N).
  { change 1024%N with (2 ^ 10)%N. rewrite <- !N.land_ones, N.land_lor_distr_l.
    rewrite !N.land_ones. change (2 ^ 10)%N with 1024%N.
    rewrite Ha, (N.mod_small y) by exact Hy. apply N.lor_0_l. }
  pose proof (N.div_mod (N.lor a y) 1024). pose proof (N.div_mod a 1024). lia.
Qed.

Lemma escape_char_escaped (c : char) :
  scalar_value c -> escaped c (Json.escape_char c).
Proof.
  intros [Hs Hmax]. unfold Json.escape_char.
  destruct (N.eqb_spec c 92) as [->|H92];
    [apply (escaped_short _ 92%N); cbn; tauto|].
  destruct (N.eqb_spec c 34) as [->|H34];
    [apply (escaped_short _ 34%N); cbn; tauto|].
  destruct (N.eqb_spec c 8) as [->|H8];
    [apply (escaped_short _ 98%N); cbn; tauto|].
  destruct (N.eqb_spec c 12) as [->|H12];
    [apply (escaped_short _ 102%N); cbn; tauto|].
  destruct (N.eqb_spec c 10) as [->|H10];
    [apply (escaped_short _ 110%N); cbn; tauto|].
  destruct (N.eqb_spec c 13) as [->|H13];
    [apply (escaped_short _ 114%N); cbn; tauto|].
  destruct (N.eqb_spec c 9) as [->|H9];
    [apply (escaped_short _ 116%N); cbn; tauto|].
  destruct ((32 <=? c) && (c <=? 126))%N eqn:Hp.
  { apply andb_true_iff in Hp as [?%N.leb_le ?%N.leb_le].
    apply escaped_plain; [lia|assumption|assumption]. }
  destruct (N.ltb_spec c 65536) as [Hbmp|Hastral].
  { apply escaped_bmp. lia. }
  cbv zeta.
  assert (Hn : (c - 65536 < 1048576)%N) by lia.
  rewrite N.shiftr_div_pow2. change (2 ^ 10)%N with 1024%N.
  change 1023%N with (N.ones 10). rewrite !N.land_ones.
  change (2 ^ 10)%N with 1024%N.
  assert (Hhigh : ((c - 65536) / 1024 < 1024)%N)
    by (apply N.Div0.div_lt_upper_bound; lia).
  assert (Hlow : ((c - 65536) mod 1024 < 1024)%N)
    by (apply N.mod_upper_bound; discriminate).
  rewrite (N.mod_small ((c - 65536) / 1024)) by exact Hhigh.
  rewrite (lor_low_bits 55296) by (reflexivity || assumption).
  rewrite (lor_low_bits 56320) by (reflexivity || assumption).
  apply escaped_astral. lia.
Qed.

Lemma hex4_cons (n : N) : exists a b c d, hex4 n = [a; b; c; d].
Proof. unfold hex4. eauto. Qed.

Lemma surrogate_parts (c : char) :
  (65536 <= c < 1114112)%N ->
  (c - 65536 = 1024 * ((c - 65536) / 1024) + (c - 65536) mod 1024)%N /\
  ((c - 65536) / 1024 < 1024)%N /\ ((c - 65536) mod 1024 < 1024)%N.
Proof.
  intros H. split; [apply N.div_mod; discriminate|]. split.
  - apply N.Div0.div_lt_upper_bound. lia.
  - apply N.mod_upper_bound. discriminate.
Qed.

Ltac in_cases :=
  repeat match goal with
         | H : _ \/ _ |- _ => destruct H as [H|H]
         | H : False |- _ => destruct H
         end; congruence.

(** The escapes are a prefix code. *)
Lemma escaped_prefix_free (c1 c2 : char) (e1 e2 r1 r2 : pystr) :
  escaped c1 e1 -> escaped c2 e2 ->
  e1 ++ r1 = e2 ++ r2 -> c1 = c2 /\ r1 = r2.
Proof.
  intros H1 H2.
  destruct H1 as [Hr1 Hb1 Hq1|x1 Hin1|Hr1|Hr1];
    destruct H2 as [Hr2 Hb2 Hq2|x2 Hin2|Hr2|Hr2]; cbn [app];
    try pose proof (surrogate_parts c1 Hr1) as (? & ? & ?);
    try pose proof (surrogate_parts c2 Hr2) as (? & ? & ?);
    try (intros [= -> ->]; split; reflexivity);
    try (intros [= ->]; congruence);
    try (intros [= <-]; congruence).
  - intros [= -> ->]. split; [|reflexivity].
    cbn [In] in Hin1, Hin2.
    in_cases.
  - destruct (hex4_cons c2) as (a & b & c & d & ->). cbn [app].
    intros [= -> _]. cbn [In] in Hin1.
    in_cases.
  - destruct (hex4_cons (55296 + (c2 - 65536) / 1024)) as (a & b & c & d & ->).
    cbn [app]. intros [= -> _]. cbn [In] in Hin1.
    in_cases.
  - destruct (hex4_cons c1) as (a & b & c & d & ->). cbn [app].
    intros [= <- _]. cbn [In] in Hin2.
    in_cases.
  - destruct (hex4_cons c1) as (a & b & c & d & E1).
    destruct (hex4_cons c2) as (a' & b' & c' & d' & E2).
    rewrite E1, E2. cbn [app]. intros [= -> -> -> -> ->].
    rewrite <- E2 in E1. apply hex4_inj in E1; [auto|lia|lia].
  - destruct (hex4_cons c1) as (a & b & c & d & E1).
    destruct (hex4_cons (55296 + (c2 - 65536) / 1024)) as (a' & b' & c' & d' & E2).
    rewrite E1, E2. cbn [app]. intros [= -> -> -> -> _].
    rewrite <- E2 in E1. apply hex4_inj in E1; lia.
  - destruct (hex4_cons (55296 + (c1 - 65536) / 1024)) as (a & b & c & d & ->).
    cbn [app]. intros [= <- _]. cbn [In] in Hin2.
    in_cases.
  - destruct (hex4_cons (55296 + (c1 - 65536) / 1024)) as (a & b & c & d & E1).
    destruct (hex4_cons c2) as (a' & b' & c' & d' & E2).
    rewrite E1, E2. cbn [app]. intros [= -> -> -> -> _].
    rewrite <- E2 in E1. apply hex4_inj in E1; lia.
  - destruct (hex4_cons (55296 + (c1 - 65536) / 1024)) as (a & b & c & d & E1).
    destruct (hex4_cons (55296 + (c2 - 65536) / 1024)) as (a' & b' & c' & d' & E2).
    destruct (hex4_cons (56320 + (c1 - 65536) mod 1024)) as (x & y & z & u & F1).
    destruct (hex4_cons (56320 + (c2 - 65536) mod 1024)) as (x' & y' & z' & u' & F2).
    rewrite E1, E2, F1, F2. cbn [app].
    intros [= -> -> -> -> -> -> -> -> ->].
    rewrite <- E2 in E1. rewrite <- F2 in F1.
    apply hex4_inj in E1; [|lia|lia]. apply hex4_inj in F1; [|lia|lia].
    split; [lia|reflexivity].
Qed.

Lemma escaped_head (c : char) (e : pystr) :
  escaped c e -> exists h t, e = h :: t /\ h <> 34%N.
Proof.
  destruct 1; eexists _, _; (split; [reflexivity|]); congruence.
Qed.

(** The escaped characters of a string end at the closing quote. *)
Lemma escaped_string_inj (s1 s2 r1 r2 : pystr) :
  Forall scalar_value s1 -> Forall scalar_value s2 ->
  flat_map Json.escape_char s1 ++ 34%N :: r1 =
  flat_map Json.escape_char s2 ++ 34%N :: r2 ->
  s1 = s2 /\ r1 = r2.
Proof.
  intros H1. revert s2. induction H1 as [|c1 s1 Hc1 _ IH]; intros s2 H2.
  - destruct H2 as [|c2 s2 Hc2 _]; cbn [flat_map app].
    + intros [= ->]. auto.
    + destruct (escaped_head _ _ (escape_char_escaped _ Hc2)) as (h & t & -> & Hh).
      cbn [app]. intros [= <-]. contradiction.
  - destruct H2 as [|c2 s2 Hc2 H2]; cbn [flat_map app].
    + destruct (escaped_head _ _ (escape_char_escaped _ Hc1)) as (h & t & -> & Hh).
      cbn [app]. intros [= ->]. contradiction.
    + rewrite <- !app_assoc. intros H.
      apply (escaped_prefix_free c1 c2) in H as [-> H];
        [|apply escape_char_escaped; assumption..].
      destruct (IH _ H2 H) as [-> ->]. auto.
Qed.

Lemma join_encoded_inj (args1 args2 : list pystr) (r1 r2 : pystr) :
  Forall (Forall scalar_value) args1 -> Forall (Forall scalar_value) args2 ->
  join (str ", ") (map Json.encode_basestring_ascii args1) ++ 93%N :: r1 =
  join (str ", ") (map Json.encode_basestring_ascii args2) ++ 93%N :: r2 ->
  args1 = args2 /\ r1 = r2.
Proof.
  intros H1. revert args2. induction H1 as [|a1 args1 Ha1 Hrest1 IH]; intros args2 H2.
  - destruct H2 as [|a2 args2 Ha2 _].
    + cbn. intros [= ->]. auto.
    + destruct args2; cbn; discriminate.
  - destruct H2 as [|a2 args2 Ha2 Hrest2].
    + destruct args1; cbn; discriminate.
    + assert (Hjoin : forall a rest r,
                 join (str ", ") (map Json.encode_basestring_ascii (a :: rest)) ++ 93%N :: r =
                 34%N :: flat_map Json.escape_char a ++ 34%N ::
                   match rest with
                   | [] => 93%N :: r
                   | _ :: _ =>
                       44%N :: 32%N ::
                         join (str ", ") (map Json.encode_basestring_ascii rest) ++ 93%N :: r
                   end).
      { intros a rest r. destruct rest as [|b rest].
        - cbn [map join]. unfold Json.encode_basestring_ascii.
          cbn [app]. rewrite <- !app_assoc. reflexivity.
        - cbn [map]. rewrite join_cons. unfold Json.encode_basestring_ascii at 1.
          cbn [app]. rewrite <- !app_assoc. reflexivity. }
      rewrite !Hjoin. intros [= H].
      apply escaped_string_inj in H as [-> H]; [|assumption..].
      destruct args1 as [|b1 args1], args2 as [|b2 args2]; try discriminate H.
      * injection H as ->. auto.
      * injection H as H. destruct (IH _ Hrest2 H) as [-> ->]. auto.
Qed.

Lemma dumps_inj (args1 args2 : list pystr) :
  Forall (Forall scalar_value) args1 -> Forall (Forall scalar_value) args2 ->
  Json.dumps args1 = Json.dumps args2 -> args1 = args2.
Proof.
  intros H1 H2. unfold Json.dumps. change (str "[") with [91%N].
  change (str "]") with [93%N]. cbn [app]. intros [= H].
  apply (join_encoded_inj _ _ [] []) in H as [-> _]; auto.
Qed.

Lemma codes_inj (s1 s2 : pystr) : map Z.of_N s1 = map Z.of_N s2 -> s1 = s2.
Proof.
  revert s2. induction s1 as [|a s1 IH]; intros [|b s2]; cbn [map];
    try discriminate; [reflexivity|].
  intros [= Ha Hs]. apply N2Z.inj in Ha as ->. rewrite (IH _ Hs). reflexivity.
Qed.

End JsonInjective.

(** X21. The text that is hashed for the cache key determines the
    arguments. For strings of Unicode scalar values, two tuples with the
    same JSON text, or the same bytes after [.encode()], are the same
    tuple: requests that differ in file name, role or sanitized case name
    can share a cache key only when MD5 collides. For strings with lone
    surrogates this fails: the two surrogates U+D800 U+DC00 and the one
    character U+10000 give the same text. *)
Theorem cache_key_text_determines_arguments :
  (forall args1 args2 : list pystr,
     Forall (Forall scalar_value) args1 ->
     Forall (Forall scalar_value) args2 ->
     (Json.dumps args1 = Json.dumps args2 -> args1 = args2) /\
     (encode (Json.dumps args1) = encode (Json.dumps args2) -> args1 = args2)) /\
  Json.dumps [[55296; 56320]%N] = Json.dumps [[65536%N]] /\
  generate_cache_key [[55296; 56320]%N] = generate_cache_key [[65536%N]].
Proof.
  split; [|split; [reflexivity|]].
  - intros args1 args2 H1 H2. split; [apply dumps_inj; assumption|].
    rewrite !encode_ascii by apply dumps_printable.
    intros H. apply dumps_inj; [assumption..|]. exact (codes_inj _ _ H).
  - unfold generate_cache_key.
    replace (Json.dumps [[55296; 56320]%N]) with (Json.dumps [[65536%N]])
      by reflexivity.
    reflexivity.
Qed.

(** ** The further properties on sample requests *)

Section SampleWorlds.

Lemma reachable_fold (l : list nat) (w : World) :
  reachable w ->
  reachable (fold_left (fun w i => (AppNew.generate_irac 0 (numbered i) answering w).2)
               l w).
Proof.
  revert w. induction l as [|i l IH]; intros w Hw; [exact Hw|].
  cbn [fold_left]. apply IH. apply reachable_step. exact Hw.
Qed.

Lemma reachable_world_after (n : nat) : reachable (world_after n).
Proof. apply reachable_fold, reachable_initial. Qed.

Lemma reachable_world_after_first : reachable world_after_first.
Proof.
  exact (reachable_step initial_world 0 (upload "file" "a.pdf" sample_pdf ∅)
           answering reachable_initial).
Qed.

Lemma first_run :
  AppNew.generate_irac 0 (upload "file" "a.pdf" sample_pdf ∅) answering initial_world =
  (Return first_response, world_after_first).
Proof. vm_compute. reflexivity. Qed.

End SampleWorlds.

(** X8, on the sample upload: its response is the object of the cache
    entry it leaves; and the refused [brief.txt] leaves the cache and the
    objects as they were. *)
Lemma cache_holds_exactly_successes_witness :
  (exists file x,
     files (upload "file" "a.pdf" sample_pdf ∅) !! "file" = Some file /\
     TTLCache.find (new_cache_key (upload "file" "a.pdf" sample_pdf ∅) file)
       (TTLCache.links (response_cache world_after_first)) = Some x /\
     0 < TTLCache.expires x /\
     heap world_after_first !! TTLCache.value x = Some (body first_response)) /\
  AppNew.generate_irac 60 (upload "file" "brief.txt" sample_pdf ∅) answering
    world_after_first =
    (Return (error_response "Invalid file type. Only PDF files are allowed." 400),
     world_after_first) /\
  heap world_after_first = heap world_after_first /\
  response_cache world_after_first = response_cache world_after_first.
Proof.
  assert (H2 : AppNew.generate_irac 60 (upload "file" "brief.txt" sample_pdf ∅)
                 answering world_after_first =
               (Return (error_response
                          "Invalid file type. Only PDF files are allowed." 400),
                world_after_first)) by (vm_compute; reflexivity).
  split; [|split; [exact H2|]].
  - pose proof (proj1 (cache_holds_exactly_successes _ _ _ _ _ _
                         reachable_initial first_run)) as H.
    apply H. reflexivity.
  - pose proof (proj2 (cache_holds_exactly_successes _ _ _ _ _ _
                         reachable_world_after_first H2)) as H.
    apply H. discriminate.
Defined.

(** X9, after 101 different uploads: the cache holds 100 entries. *)
Lemma cache_never_exceeds_100_entries_witness :
  length (calls (world_after 101)) = 202%nat /\
  length (TTLCache.links (response_cache (world_after 101))) = 100%nat /\
  (length (TTLCache.links (response_cache (world_after 101))) <= 100)%nat /\
  NoDup (cache_keys (world_after 101)) /\
  (forall key x,
     TTLCache.find key (TTLCache.links (response_cache (world_after 101))) = Some x ->
     is_Some (heap (world_after 101) !! TTLCache.value x)).
Proof.
  split; [vm_compute; reflexivity|]. split; [vm_compute; reflexivity|].
  exact (cache_never_exceeds_100_entries (world_after 101) (reachable_world_after 101)).
Defined.

(** X10, on the sample upload: stored at 0 s, served at 60 s, read again
    at 300 s. *)
Lemma cached_response_expires_after_ttl_witness :
  exists file,
    files (upload "file" "a.pdf" sample_pdf ∅) !! "file" = Some file /\
    (exists l,
       calls (AppNew.generate_irac 300 (upload "file" "a.pdf" sample_pdf ∅)
                answering world_after_first).2 =
       l ++ PdfRead file :: calls world_after_first) /\
    (60 < 0 + 300 ->
     exists w2,
       AppNew.generate_irac 60 (upload "file" "a.pdf" sample_pdf ∅) rejecting_key
         world_after_first = (Return first_response, w2) /\
       calls w2 = calls world_after_first /\
       exists l,
         calls (AppNew.generate_irac 300 (upload "file" "a.pdf" sample_pdf ∅)
                  answering w2).2 =
         l ++ PdfRead file :: calls world_after_first).
Proof.
  assert (H3 : calls world_after_first <> calls initial_world)
    by (vm_compute; discriminate).
  exact (cached_response_expires_after_ttl 0 60 300 _ answering rejecting_key
           answering _ _ _ reachable_initial first_run eq_refl H3
           ltac:(reflexivity)).
Defined.

(** X11, on the sample upload: a corrupted document of the same name, with
    a case name that differs in a control character, gets at 299 s the
    analysis of the first document. *)
Lemma same_name_served_regardless_of_document_witness :
  unreadable corrupted_pdf = true /\
  form_get (upload "file" "a.pdf" corrupted_pdf
              {[ "case_name" := belled_case_name ]}) "case_name" (str "Unnamed Case")
    <> str "Unnamed Case" /\
  exists w2,
    AppNew.generate_irac 299
      (upload "file" "a.pdf" corrupted_pdf {[ "case_name" := belled_case_name ]})
      rejecting_key world_after_first = (Return first_response, w2) /\
    calls w2 = calls world_after_first.
Proof.
  split; [reflexivity|]. split; [vm_compute; discriminate|].
  assert (H3 : calls world_after_first <> calls initial_world)
    by (vm_compute; discriminate).
  assert (Hv : new_valid_upload
                 (upload "file" "a.pdf" corrupted_pdf
                    {[ "case_name" := belled_case_name ]})
                 (upload_file "a.pdf" corrupted_pdf))
    by (repeat split; vm_compute; congruence).
  assert (Hcase : new_case_name
                    (upload "file" "a.pdf" corrupted_pdf
                       {[ "case_name" := belled_case_name ]}) =
                  new_case_name (upload "file" "a.pdf" sample_pdf ∅))
    by (vm_compute; reflexivity).
  exact (same_name_served_regardless_of_document 0 299 _ _ answering rejecting_key
           _ _ _ (upload_file "a.pdf" sample_pdf) _
           reachable_initial first_run eq_refl H3 eq_refl Hv eq_refl eq_refl Hcase
           ltac:(reflexivity)).
Defined.

(** X12, on the sample upload served from the cache at 60 s. *)
Lemma success_body_has_four_fields_witness :
  (exists analysis model usage,
     body first_response =
       {[ "analysis" := json_of analysis; "model" := JStr model;
          "usage" := JObject usage; "cached" := JBool false ]}) /\
  dom (body first_response) =
    ({[ "analysis"; "model"; "usage"; "cached" ]} : gset string) /\
  body first_response !! "error" = None.
Proof.
  assert (H : AppNew.generate_irac 60 (upload "file" "a.pdf" sample_pdf ∅)
                rejecting_key world_after_first =
              (Return first_response,
               (AppNew.generate_irac 60 (upload "file" "a.pdf" sample_pdf ∅)
                  rejecting_key world_after_first).2))
    by (vm_compute; reflexivity).
  exact (success_body_has_four_fields _ _ _ _ _ _ reachable_world_after_first H
           eq_refl).
Defined.


(** X14, on the sample upload and a completion without content. *)
Lemma completion_without_content_witness :
  exists r w',
    AppNew.generate_irac 0 (upload "file" "a.pdf" sample_pdf ∅) (answering_with None)
      initial_world = (Return r, w') /\
    status r = 200 /\
    body r !! "analysis" = Some JNull /\
    TTLCache.contains 0 (response_cache w')
      (new_cache_key (upload "file" "a.pdf" sample_pdf ∅)
         (upload_file "a.pdf" sample_pdf)) = true.
Proof.
  assert (Hb : strip sample_text <> []) by (vm_compute; discriminate).
  assert (Hv : new_valid_upload (upload "file" "a.pdf" sample_pdf ∅)
                 (upload_file "a.pdf" sample_pdf))
    by (repeat split; vm_compute; congruence).
  exact (completion_without_content 0 _ (answering_with None) _
           (upload_file "a.pdf" sample_pdf) sample_text _ []
           reachable_initial Hv eq_refl eq_refl Hb eq_refl eq_refl).
Defined.

(** X15, on the sample upload: a control character in the case name and a
    docket number change nothing. *)
Lemma new_handler_reads_two_form_fields_witness :
  AppNew.generate_irac 0
    (upload "file" "a.pdf" sample_pdf
       {[ "case_name" := belled_case_name; "docketNumber" := str "23-939" ]})
    answering initial_world =
  AppNew.generate_irac 0
    (upload "file" "a.pdf" sample_pdf {[ "case_name" := str "Unnamed Case" ]})
    answering initial_world.
Proof.
  assert (Hcase : new_case_name
                    (upload "file" "a.pdf" sample_pdf
                       {[ "case_name" := belled_case_name;
                          "docketNumber" := str "23-939" ]}) =
                  new_case_name
                    (upload "file" "a.pdf" sample_pdf
                       {[ "case_name" := str "Unnamed Case" ]}))
    by (vm_compute; reflexivity).
  exact (new_handler_reads_two_form_fields 0 _ _ answering initial_world
           eq_refl eq_refl eq_refl Hcase).
Defined.
